(** * ts-loader, [src/config.ts]: locating, loading and shaping the
    TypeScript configuration.

    The development embeds the four functions of [config.ts]
    ([findConfigFile], [getConfigFile], [getConfigParseResult],
    [getSuffixAppendingParseConfigHost], and the helper [mapArg]) together
    with the parts of their collaborators they rely on: JavaScript objects
    and [Object.assign], Node's [path] module (POSIX flavour), [semver.gte],
    the compiler's [sys] capability and the logger. Calls made to [sys] and
    to the logger are recorded in a trace, so that statements about how
    often a collaborator is called can be made. *)

From Stdlib Require Import ZArith Lia Ascii String.
From stdpp Require Import base option list strings pretty gmap fin_maps.

Set Warnings "-register-all".
Local Open Scope string_scope.
Local Open Scope list_scope.

(** ** JavaScript values and objects *)

Module JS.

(** A JavaScript value, as far as configuration data needs it. An object
    is a finite map from property names to values. *)
Inductive Value : Type :=
| Undefined
| Null
| Bool (b : bool)
| Number (n : Z)
| Str (s : string)
| Array (xs : list Value)
| Object (props : gmap string Value).

Abbreviation Obj := (gmap string Value).

(** The name through which [Object.prototype] exposes the prototype of an
    object, as an accessor. *)
Definition proto_key : string := "__proto__".

(** An object that is being written to: its own properties, and whether
    a write to [__proto__] still finds the accessor of [Object.prototype]
    on its prototype chain. An object held as a [Value] is given by its own
    enumerable properties, its prototype being [Object.prototype]. *)
Record Target : Type := {
  own : Obj;
  protoSetter : bool
}.

(** What is left of the accessor after it has been called with [value]: an
    object or [null] becomes the prototype, any other value is ignored. With
    [null] the chain no longer reaches [Object.prototype]; with an object
    that has a property [__proto__] of its own a later write finds that
    property first. *)
Definition setter_after (value : Value) : bool :=
  match value with
  | Null => false
  | Object props => negb (bool_decide (is_Some (props !! proto_key)))
  | _ => true
  end.

(** [to[key] = value], the [[Set]] of an ordinary object: a property of
    its own is overwritten; otherwise a write to [__proto__] goes to the
    accessor while it is reachable, and any other write makes a property of
    the object's own. *)
Definition put (to : Target) (key : string) (value : Value) : Target :=
  if String.eqb key proto_key
     && negb (bool_decide (is_Some (own to !! key)))
     && protoSetter to
  then {| own := own to; protoSetter := setter_after value |}
  else {| own := <[key := value]> (own to); protoSetter := protoSetter to |}.

(** A fresh view of an object held as a value. *)
Definition target_of (o : Obj) : Target := {| own := o; protoSetter := true |}.

(** [target[key] = value] on an object held as a value. *)
Definition set (target : Obj) (key : string) (value : Value) : Obj :=
  own (put (target_of target) key value).

(** One source of [Object.assign]: each of its own enumerable properties
    is written to the target; [undefined] and [null] sources are skipped. *)
Definition assign_one (to : Target) (source : option Obj) : Target :=
  match source with
  | Some src => map_fold (fun key value to => put to key value) to src
  | None => to
  end.

(** [Object.assign(target, ...sources)]: the sources are written into the
    target from left to right, property by property; the result is given
    by the properties the target then has of its own. *)
Definition Object_assign (target : Obj) (sources : list (option Obj)) : Obj :=
  own (foldl assign_one (target_of target) sources).

Definition indexed (xs : list Value) : Obj :=
  list_to_map (imap (fun i x => (pretty i, x)) xs).

(** The characters of a string written in ASCII, one string each. *)
Fixpoint characters (s : string) : list Value :=
  match s with
  | EmptyString => []
  | String c s' => Str (String c EmptyString) :: characters s'
  end.

(** A value read from a property and handed to [Object.assign] as a
    source: an object gives its properties, an array and a string their
    indexed elements, any other value (and a missing property) nothing. *)
Definition as_source (v : option Value) : option Obj :=
  match v with
  | Some (Object o) => Some o
  | Some (Array xs) => Some (indexed xs)
  | Some (Str s) => Some (indexed (characters s))
  | _ => None
  end.

(** [s.toLowerCase()] for names written in ASCII: the letters [A] to [Z]
    are lowered, every other character is kept. *)
Definition lower_ascii (c : ascii) : ascii :=
  let n := nat_of_ascii c in
  if (65 <=? n)%nat && (n <=? 90)%nat then ascii_of_nat (n + 32) else c.

Fixpoint toLowerCase (s : string) : string :=
  match s with
  | EmptyString => EmptyString
  | String c s' => String (lower_ascii c) (toLowerCase s')
  end.

(** [xs.indexOf(x) > -1] *)
Definition includes (xs : list string) (x : string) : bool :=
  existsb (String.eqb x) xs.

End JS.

(** ** Node's [path] module, POSIX flavour

    [config.ts] imports [path] from Node. The functions it uses are given
    here as Node's [path.posix] computes them: [isAbsolute], [dirname] and
    [extname] follow the library's loops index by index; [normalize],
    [join] and [resolve] work on the segments between separators. *)

Module Path.

Definition CHAR_FORWARD_SLASH : ascii := "/"%char.
Definition CHAR_DOT : ascii := "."%char.

(** [path.charCodeAt(i) === code] *)
Definition charIs (path : string) (i : nat) (code : ascii) : bool :=
  match String.get i path with
  | Some c => Ascii.eqb c code
  | None => false
  end.

(** [path.slice(start, end)] for [0 <= start <= end]. *)
Definition slice (path : string) (start end_ : nat) : string :=
  String.substring start (end_ - start) path.

Definition isAbsolute (path : string) : bool :=
  (0 <? String.length path)%nat && charIs path 0 CHAR_FORWARD_SLASH.

(** The loop of [dirname]: [for (let i = path.length - 1; i >= 1; --i)],
    looking for the last separator that is followed by a name. The result
    is [end], [None] standing for [-1]. *)
Fixpoint dirname_loop (path : string) (i : nat) (matchedSlash : bool)
  : option nat :=
  match i with
  | O => None
  | S i' =>
      if charIs path i CHAR_FORWARD_SLASH then
        if negb matchedSlash then Some i
        else dirname_loop path i' matchedSlash
      else dirname_loop path i' false
  end.

Definition dirname (path : string) : string :=
  if (String.length path =? 0)%nat then "."
  else
    let hasRoot := charIs path 0 CHAR_FORWARD_SLASH in
    match dirname_loop path (String.length path - 1) true with
    | None => if hasRoot then "/" else "."
    | Some end_ =>
        if hasRoot && (end_ =? 1)%nat then "//" else slice path 0 end_
    end.

(** The state of the loop of [extname]; [-1] is kept as such. *)
Record ExtState : Type := {
  startDot : Z;
  startPart : Z;
  end_ : Z;
  matchedSlash : bool;
  preDotState : Z
}.

Definition ext_init : ExtState :=
  {| startDot := -1; startPart := 0; end_ := -1;
     matchedSlash := true; preDotState := 0 |}.

(** [for (let i = path.length - 1; i >= 0; --i)]; [n] is [i + 1]. *)
Fixpoint extname_loop (path : string) (n : nat) (st : ExtState) : ExtState :=
  match n with
  | O => st
  | S i =>
      if charIs path i CHAR_FORWARD_SLASH then
        if negb (matchedSlash st) then
          {| startDot := startDot st; startPart := Z.of_nat i + 1;
             end_ := end_ st; matchedSlash := matchedSlash st;
             preDotState := preDotState st |}
        else extname_loop path i st
      else
        let st1 :=
          if (end_ st =? -1)%Z then
            {| startDot := startDot st; startPart := startPart st;
               end_ := Z.of_nat i + 1; matchedSlash := false;
               preDotState := preDotState st |}
          else st in
        let st2 :=
          if charIs path i CHAR_DOT then
            if (startDot st1 =? -1)%Z then
              {| startDot := Z.of_nat i; startPart := startPart st1;
                 end_ := end_ st1; matchedSlash := matchedSlash st1;
                 preDotState := preDotState st1 |}
            else if negb (preDotState st1 =? 1)%Z then
              {| startDot := startDot st1; startPart := startPart st1;
                 end_ := end_ st1; matchedSlash := matchedSlash st1;
                 preDotState := 1 |}
            else st1
          else if negb (startDot st1 =? -1)%Z then
            {| startDot := startDot st1; startPart := startPart st1;
               end_ := end_ st1; matchedSlash := matchedSlash st1;
               preDotState := -1 |}
          else st1 in
        extname_loop path i st2
  end.

Definition extname (path : string) : string :=
  let st := extname_loop path (String.length path) ext_init in
  if (startDot st =? -1)%Z || (end_ st =? -1)%Z || (preDotState st =? 0)%Z
     || ((preDotState st =? 1)%Z && (startDot st =? end_ st - 1)%Z
         && (startDot st =? startPart st + 1)%Z)
  then ""
  else slice path (Z.to_nat (startDot st)) (Z.to_nat (end_ st)).

(** The segments of a path between separators. *)
Fixpoint segments (path : string) : list string :=
  match path with
  | EmptyString => [""]
  | String c rest =>
      if Ascii.eqb c CHAR_FORWARD_SLASH then "" :: segments rest
      else
        match segments rest with
        | seg :: segs => String c seg :: segs
        | [] => [String c ""]
        end
  end.

(** One segment of [normalizeString]; the segments kept so far are held
    last first. Empty and ["."] segments are dropped, [".."] removes the
    segment before it, or is kept where there is none to remove and the
    path may climb above its start. *)
Definition normalize_step (allowAboveRoot : bool) (kept : list string)
    (seg : string) : list string :=
  if String.eqb seg "" || String.eqb seg "." then kept
  else if String.eqb seg ".." then
    match kept with
    | top :: below =>
        if String.eqb top ".." then
          if allowAboveRoot then ".." :: kept else kept
        else below
    | [] => if allowAboveRoot then [".."] else []
    end
  else seg :: kept.

Definition normalizeString (path : string) (allowAboveRoot : bool) : string :=
  String.concat "/"
    (rev (fold_left (normalize_step allowAboveRoot) (segments path) [])).

Definition normalize (path : string) : string :=
  if (String.length path =? 0)%nat then "."
  else
    let isAbsolute := charIs path 0 CHAR_FORWARD_SLASH in
    let trailingSeparator :=
      charIs path (String.length path - 1) CHAR_FORWARD_SLASH in
    let path' := normalizeString path (negb isAbsolute) in
    if (String.length path' =? 0)%nat then
      if isAbsolute then "/" else if trailingSeparator then "./" else "."
    else
      let path'' := if trailingSeparator then path' +:+ "/" else path' in
      if isAbsolute then "/" +:+ path'' else path''.

(** [path.join(...args)]: the non-empty arguments, joined by a separator
    and normalized. *)
Definition join (args : list string) : string :=
  match List.filter (fun arg => (0 <? String.length arg)%nat) args with
  | [] => "."
  | parts => normalize (String.concat "/" parts)
  end.

(** The loop of [resolve], from the last argument to the first and then
    the working directory, until an absolute path has been put in front. *)
Fixpoint resolve_loop (cwd : string) (args_rev : list string)
    (resolvedPath : string) : string * bool :=
  match args_rev with
  | [] => (cwd +:+ "/" +:+ resolvedPath, charIs cwd 0 CHAR_FORWARD_SLASH)
  | path :: before =>
      if (String.length path =? 0)%nat then
        resolve_loop cwd before resolvedPath
      else
        let resolvedPath' := path +:+ "/" +:+ resolvedPath in
        if charIs path 0 CHAR_FORWARD_SLASH then (resolvedPath', true)
        else resolve_loop cwd before resolvedPath'
  end.

(** [path.resolve(...args)]; [cwd] is the working directory of the
    process, which Node reads when no argument is absolute. *)
Definition resolve (cwd : string) (args : list string) : string :=
  let '(resolvedPath, resolvedAbsolute) := resolve_loop cwd (rev args) "" in
  let resolvedPath' := normalizeString resolvedPath (negb resolvedAbsolute) in
  if resolvedAbsolute then "/" +:+ resolvedPath'
  else if (0 <? String.length resolvedPath')%nat then resolvedPath' else ".".

End Path.

(** ** [semver.gte]

    A parsed semantic version: the three numbers and the pre-release
    identifiers, each numeric or alphanumeric. *)

Module Semver.

Inductive Identifier : Type :=
| Numeric (n : N)
| Alphanumeric (s : string).

Record SemVer : Type := {
  major : N;
  minor : N;
  patch : N;
  prerelease : list Identifier
}.

(** [compareIdentifiers]: numeric identifiers sort below alphanumeric ones. *)
Definition compareIdentifiers (a b : Identifier) : comparison :=
  match a, b with
  | Numeric x, Numeric y => N.compare x y
  | Numeric _, Alphanumeric _ => Lt
  | Alphanumeric _, Numeric _ => Gt
  | Alphanumeric x, Alphanumeric y => String.compare x y
  end.

Definition compareMain (a b : SemVer) : comparison :=
  match N.compare (major a) (major b) with
  | Eq =>
      match N.compare (minor a) (minor b) with
      | Eq => N.compare (patch a) (patch b)
      | c => c
      end
  | c => c
  end.

(** The identifier by identifier loop of [comparePre]. *)
Fixpoint comparePre_loop (a b : list Identifier) : comparison :=
  match a, b with
  | [], [] => Eq
  | _ :: _, [] => Gt
  | [], _ :: _ => Lt
  | x :: a', y :: b' =>
      match compareIdentifiers x y with
      | Eq => comparePre_loop a' b'
      | c => c
      end
  end.

(** [comparePre]: a version with a pre-release is below the same version
    without one. *)
Definition comparePre (a b : SemVer) : comparison :=
  match prerelease a, prerelease b with
  | _ :: _, [] => Lt
  | [], _ :: _ => Gt
  | [], [] => Eq
  | pa, pb => comparePre_loop pa pb
  end.

Definition compare (a b : SemVer) : comparison :=
  match compareMain a b with
  | Eq => comparePre a b
  | c => c
  end.

Definition gte (a b : SemVer) : bool :=
  match compare a b with
  | Lt => false
  | _ => true
  end.

End Semver.

(** ** Collaborators and their calls

    The optional trailing arguments of [readDirectory]. *)
Record ReadDirectoryRest : Type := {
  excludes : option (list string);
  includes : option (list string);
  depth : option nat
}.

(** [sys.readDirectory(rootDir)]: nothing but the directory is passed. *)
Definition no_rest : ReadDirectoryRest :=
  {| excludes := None; includes := None; depth := None |}.

(** A call this module makes to a collaborator: the three filesystem
    capabilities of [compiler.sys] and [log.logInfo]. *)
Inductive Event : Type :=
| FileExists (path : string)
| ReadFile (path : string)
| ReadDirectory (rootDir : string) (extensions : option (list string))
    (rest : ReadDirectoryRest)
| LogInfo (message : string).

(** A computation either returns or has used up the steps it was given;
    only the [while (true)] loop of [findConfigFile] consumes steps. *)
Inductive Outcome (A : Type) : Type :=
| Done (a : A)
| OutOfFuel.
Arguments Done {A} a.
Arguments OutOfFuel {A}.

(** Computations of this module: an outcome and the calls made, in order. *)
Definition M (A : Type) : Type := Outcome A * list Event.

Definition ret {A : Type} (a : A) : M A := (Done a, []).

Definition bind {A B : Type} (m : M A) (k : A -> M B) : M B :=
  match m with
  | (Done a, calls) => let '(b, calls') := k a in (b, calls ++ calls')
  | (OutOfFuel, calls) => (OutOfFuel, calls)
  end.

Notation "x <- m ;; k" := (bind m (fun x => k))
  (at level 100, m at next level, right associativity).

Definition emit (e : Event) : M unit := (Done tt, [e]).

(** The calls and the result of a computation. *)
Definition calls {A : Type} (m : M A) : list Event := snd m.
Definition outcome {A : Type} (m : M A) : Outcome A := fst m.

Definition isLogInfo (e : Event) : bool :=
  match e with
  | LogInfo _ => true
  | _ => false
  end.

Definition isSysCall (e : Event) : bool := negb (isLogInfo e).

(** [typescript.System], as far as this module uses it. The filesystem is
    read only while a configuration is resolved, so each capability is a
    function of its arguments. *)
Record System : Type := {
  sys_useCaseSensitiveFileNames : bool;
  sys_fileExists : string -> bool;
  sys_readFile : string -> option string;
  sys_readDirectory :
    string -> option (list string) -> ReadDirectoryRest -> list string
}.

(** [typescript.ParseConfigHost]. *)
Record ParseConfigHost : Type := {
  useCaseSensitiveFileNames : bool;
  fileExists : string -> M bool;
  readFile : string -> M (option string);
  readDirectory : string -> list string -> ReadDirectoryRest -> M (list string)
}.

(** One call to a capability of [sys]. *)
Definition call_fileExists (sys : System) (path : string) : M bool :=
  _ <- emit (FileExists path) ;; ret (sys_fileExists sys path).

Definition call_readFile (sys : System) (path : string) : M (option string) :=
  _ <- emit (ReadFile path) ;; ret (sys_readFile sys path).

Definition call_readDirectory (sys : System) (rootDir : string)
    (extensions : option (list string)) (rest : ReadDirectoryRest)
  : M (list string) :=
  _ <- emit (ReadDirectory rootDir extensions rest) ;;
  ret (sys_readDirectory sys rootDir extensions rest).

(** [sys] itself, seen as a [ParseConfigHost]: every method is the call to
    the capability of the same name. *)
Definition host_of_sys (sys : System) : ParseConfigHost :=
  {| useCaseSensitiveFileNames := sys_useCaseSensitiveFileNames sys;
     fileExists := call_fileExists sys;
     readFile := call_readFile sys;
     readDirectory := fun rootDir extensions rest =>
       call_readDirectory sys rootDir (Some extensions) rest |}.

(** [log.logInfo(message)] *)
Definition logInfo (message : string) : M unit := emit (LogInfo message).

(** A regular expression, through the file names it matches. *)
Definition RegExp : Type := string -> bool.

(** [LoaderOptions], the fields read here. *)
Record LoaderOptions : Type := {
  configFile : string;
  compilerOptions : JS.Obj;
  appendTsSuffixTo : list RegExp;
  appendTsxSuffixTo : list RegExp
}.

(** [webpack.loader.LoaderContext], the fields read here. *)
Record LoaderContext : Type := {
  resourcePath : string;
  context : string
}.

(** ** [config.ts] *)

Section Config.

(** The types of [chalk], of the compiler's diagnostics and of the errors
    handed to webpack are declared outside [config.ts] and stay abstract. *)
Context {Chalk Diagnostic WebpackError : Type}.

(** [ConfigFile], the result of [compiler.readConfigFile]. *)
Record ConfigFile : Type := {
  config : JS.Obj;
  error : option Diagnostic
}.

(** [typescript.ParsedCommandLine], the result of
    [compiler.parseJsonConfigFileContent]. *)
Record ParsedCommandLine : Type := {
  options : JS.Obj;
  fileNames : list string;
  errors : list Diagnostic
}.

(** The compiler instance ([typeof typescript]), the members used here;
    [version] is held parsed, and [readConfigFile] gives the result of the
    compiler's function in terms of the answers of the function it is
    handed (the call it makes through it is recorded by
    [call_readConfigFile]). *)
Record Compiler : Type := {
  version : Semver.SemVer;
  sys : System;
  readConfigFile : string -> (string -> option string) -> ConfigFile;
  parseJsonConfigFileContent :
    JS.Obj -> ParseConfigHost -> string -> ParsedCommandLine
}.

(** The two functions imported from [./utils]. *)
Record Utils : Type := {
  formatErrors :
    list Diagnostic -> LoaderOptions -> Chalk -> Compiler ->
    string (* merge.file *) -> string (* context *) -> list WebpackError;
  getPossiblyRenamedFilePath : string -> LoaderOptions -> string
}.

(** What [getConfigFile] returns; the property [configFile] is written
    [configFile_], the plain name being the option's. *)
Record ConfigFileResult : Type := {
  configFilePath : option string;
  configFile_ : ConfigFile;
  configFileError : option WebpackError
}.

(** The working directory of the process, read by [path.resolve]. *)
Variable cwd : string.

Variable utils : Utils.

(** [configFile.match(/^\.\.?(\/|\\)/) !== null]: one or two dots, then a
    slash or a backslash. *)
Definition isDelimiter (c : ascii) : bool :=
  Ascii.eqb c "/"%char || Ascii.eqb c "\"%char.

Definition matchesRelative (configFile : string) : bool :=
  match configFile with
  | String c0 (String c1 rest) =>
      Ascii.eqb c0 "."%char &&
      (isDelimiter c1 ||
       (Ascii.eqb c1 "."%char &&
        match rest with
        | String c2 _ => isDelimiter c2
        | EmptyString => false
        end))
  | _ => false
  end.

(** The [while (true)] loop of [findConfigFile]; one unit of [fuel] pays
    for one round. *)
Fixpoint findConfigFile_loop (fuel : nat) (compiler : Compiler)
    (requestDirPath configFile : string) : M (option string) :=
  match fuel with
  | O => (OutOfFuel, [])
  | S fuel' =>
      let fileName := Path.join [requestDirPath; configFile] in
      found <- call_fileExists (sys compiler) fileName ;;
      if found : bool then ret (Some fileName)
      else
        let parentPath := Path.dirname requestDirPath in
        if String.eqb parentPath requestDirPath then ret None
        else findConfigFile_loop fuel' compiler parentPath configFile
  end.

Definition findConfigFile (fuel : nat) (compiler : Compiler)
    (requestDirPath configFile : string) : M (option string) :=
  if Path.isAbsolute configFile then
    found <- call_fileExists (sys compiler) configFile ;;
    ret (if found : bool then Some configFile else None)
  else if matchesRelative configFile then
    let resolvedPath := Path.resolve cwd [requestDirPath; configFile] in
    found <- call_fileExists (sys compiler) resolvedPath ;;
    ret (if found : bool then Some resolvedPath else None)
  else findConfigFile_loop fuel compiler requestDirPath configFile.

(** [compiler.readConfigFile(fileName, compiler.sys.readFile)]: the
    compiler reads [fileName] once, through the function it is handed,
    and parses what it is given. *)
Definition call_readConfigFile (compiler : Compiler) (fileName : string)
  : M ConfigFile :=
  _ <- emit (ReadFile fileName) ;;
  ret (readConfigFile compiler fileName (sys_readFile (sys compiler))).

(** The configuration used when no file was found:
    [{ compilerOptions: {}, files: [] }]. *)
Definition emptyConfig : JS.Obj :=
  {[ "compilerOptions" := JS.Object ∅; "files" := JS.Array [] ]}.

Definition getConfigFile (fuel : nat) (compiler : Compiler) (colors : Chalk)
    (loader : LoaderContext) (loaderOptions : LoaderOptions)
    (compilerCompatible : bool) (compilerDetailsLogMessage : string)
  : M ConfigFileResult :=
  configFilePath <-
    findConfigFile fuel compiler (Path.dirname (resourcePath loader))
      (configFile loaderOptions) ;;
  read <-
    match configFilePath with
    | Some configFilePath =>
        _ <- (if compilerCompatible
              then logInfo (compilerDetailsLogMessage +:+ " and "
                            +:+ configFilePath)
              else logInfo ("ts-loader: Using config file at "
                            +:+ configFilePath)) ;;
        configFile <- call_readConfigFile compiler configFilePath ;;
        let configFileError :=
          match error configFile with
          | Some err =>
              head (formatErrors utils [err] loaderOptions colors compiler
                      configFilePath (context loader))
          | None => None
          end in
        ret (configFile, configFileError)
    | None =>
        _ <- (if compilerCompatible then logInfo compilerDetailsLogMessage
              else ret tt) ;;
        ret ({| config := emptyConfig; error := None |}, None)
    end ;;
  let '(configFile, configFileError) := read in
  let configFile :=
    match configFileError with
    | None =>
        {| config :=
             JS.set (config configFile) "compilerOptions"
               (JS.Object
                  (JS.Object_assign ∅
                     [JS.as_source (config configFile !! "compilerOptions");
                      Some (compilerOptions loaderOptions)]));
           error := error configFile |}
    | Some _ => configFile
    end in
  ret {| configFilePath := configFilePath;
         configFile_ := configFile;
         configFileError := configFileError |}.

Definition mapArg {T U : Type} (toWrap : T -> U) (wrapWith : T -> T) : T -> U :=
  fun x => toWrap (wrapWith x).

Definition getSuffixAppendingParseConfigHost (sys : System)
    (loaderOptions : LoaderOptions) : ParseConfigHost :=
  let transformFileName := fun rawFileName : string =>
    getPossiblyRenamedFilePath utils rawFileName loaderOptions in
  if (length (appendTsSuffixTo loaderOptions) =? 0)%nat
     && (length (appendTsxSuffixTo loaderOptions) =? 0)%nat
  then host_of_sys sys
  else
    {| useCaseSensitiveFileNames := sys_useCaseSensitiveFileNames sys;
       fileExists := mapArg (call_fileExists sys) transformFileName;
       readFile := mapArg (call_readFile sys) transformFileName;
       readDirectory := fun rootDir extensions rest =>
         allFiles <- call_readDirectory sys rootDir None no_rest ;;
         let customExtensions :=
           fold_left (fun (exts : list string) (fileName : string) =>
             let renamed := transformFileName fileName in
             if negb (String.eqb renamed fileName)
                && JS.includes extensions
                     (JS.toLowerCase (Path.extname renamed))
             then
               let ext := JS.toLowerCase (Path.extname fileName) in
               if (0 <? String.length ext)%nat then exts ++ [ext] else exts
             else exts) allFiles [] in
         files <-
           call_readDirectory sys rootDir
             (Some (extensions ++ customExtensions)) rest ;;
         ret (map transformFileName files) |}.

(** The version named in [semver.gte(compiler.version, '3.5.0')]. *)
Definition v3_5_0 : Semver.SemVer :=
  {| Semver.major := 3; Semver.minor := 5; Semver.patch := 0;
     Semver.prerelease := [] |}.

(** The value of a [string | undefined]. *)
Definition string_or_undefined (s : option string) : JS.Value :=
  match s with
  | Some s => JS.Str s
  | None => JS.Undefined
  end.

Definition getConfigParseResult (compiler : Compiler) (configFile : ConfigFile)
    (basePath : string) (configFilePath : option string)
    (loaderOptions : LoaderOptions) : ParsedCommandLine :=
  let configParseResult :=
    parseJsonConfigFileContent compiler (config configFile)
      (getSuffixAppendingParseConfigHost (sys compiler) loaderOptions)
      basePath in
  if Semver.gte (version compiler) v3_5_0 then
    {| options :=
         JS.Object_assign ∅
           [Some (options configParseResult);
            Some {[ "configFilePath" := string_or_undefined configFilePath ]}];
       fileNames := fileNames configParseResult;
       errors := errors configParseResult |}
  else configParseResult.

End Config.

(** ** Reading aids for the statements below *)

(** The directory [n] levels above [dir]: [path.dirname] applied [n] times. *)
Definition up (n : nat) (dir : string) : string := Nat.iter n Path.dirname dir.

(** Fuel that pays for the whole walk from [requestDirPath]. *)
Definition enough_fuel (requestDirPath : string) : nat :=
  String.length requestDirPath + 2.

(** The existence checks of the walk at the levels [0 .. n-1], in order. *)
Definition checks (dir configFile : string) (n : nat) : list Event :=
  map (fun j => FileExists (Path.join [up j dir; configFile])) (seq 0 n).

(** The number of [log.logInfo] calls among the calls made. *)
Definition logCount (calls : list Event) : nat := length (List.filter isLogInfo calls).

(** The extra extensions of [readDirectory], in the words of its
    description: the extension of every listed file that the rewrite
    renames to a name whose extension was asked for. *)
Definition discoveredExtensions (transformFileName : string -> string)
    (extensions allFiles : list string) : list string :=
  List.filter (fun ext => negb (String.eqb ext ""))
    (map (fun fileName => JS.toLowerCase (Path.extname fileName))
       (List.filter
          (fun fileName =>
             negb (String.eqb (transformFileName fileName) fileName)
             && JS.includes extensions
                  (JS.toLowerCase (Path.extname (transformFileName fileName))))
          allFiles)).

(** What [getConfigFile] holds before the merge: the configuration read
    from the located file, or the empty one when none was located. *)
Definition loadedConfigFile {Diagnostic : Type} (compiler : @Compiler Diagnostic)
    (located : option string) : @ConfigFile Diagnostic :=
  match located with
  | Some configFilePath =>
      readConfigFile compiler configFilePath (sys_readFile (sys compiler))
  | None => {| config := emptyConfig; error := None |}
  end.

(** The error [getConfigFile] reports for what it loaded: the first of the
    formatted errors, when the file was read with an error. *)
Definition loadError {Chalk Diagnostic WebpackError : Type}
    (utils : @Utils Chalk Diagnostic WebpackError)
    (compiler : @Compiler Diagnostic) (colors : Chalk) (loader : LoaderContext)
    (loaderOptions : LoaderOptions) (located : option string)
  : option WebpackError :=
  match located with
  | Some configFilePath =>
      match error (loadedConfigFile compiler located) with
      | Some err =>
          head (formatErrors utils [err] loaderOptions colors compiler
                  configFilePath (context loader))
      | None => None
      end
  | None => None
  end.

(** The compiler options of the file with those of the caller laid over
    them: [Object.assign({}, file, caller)]. *)
Definition mergedOptions (raw callerOptions : JS.Obj) : JS.Obj :=
  JS.Object_assign ∅
    [JS.as_source (raw !! "compilerOptions"); Some callerOptions].

(** The messages [getConfigFile] logs. *)
Definition logged (located : option string) (compilerCompatible : bool)
    (compilerDetailsLogMessage : string) : list Event :=
  match located with
  | Some configFilePath =>
      [LogInfo (if compilerCompatible
                then compilerDetailsLogMessage +:+ " and " +:+ configFilePath
                else "ts-loader: Using config file at " +:+ configFilePath)]
  | None =>
      if compilerCompatible then [LogInfo compilerDetailsLogMessage] else []
  end.

(** The read [getConfigFile] causes: that of the located file. *)
Definition reads (located : option string) : list Event :=
  match located with
  | Some configFilePath => [ReadFile configFilePath]
  | None => []
  end.

(** ** The functions of [./utils] *)

(** Modelled from the spec: [formatErrors] of [utils.ts], of which
    [config.ts] has the import only. The diagnostic-formatting capability
    "turns a raw parse error into a presentable message": each diagnostic
    is presented on its own, in order; [present] stands for the
    presentation. *)
Definition spec_formatErrors {Chalk Diagnostic WebpackError : Type}
    (present : Diagnostic -> string -> WebpackError)
    (diagnostics : list Diagnostic) (loaderOptions : LoaderOptions)
    (colors : Chalk) (compiler : @Compiler Diagnostic)
    (file context : string) : list WebpackError :=
  map (fun diagnostic => present diagnostic file) diagnostics.

(** Modelled from the spec: one extension-rewrite rule of [utils.ts], of
    which [config.ts] has no part. A name that one of the rule's patterns
    matches gets the synthetic suffix appended; any other name is left as
    it is. *)
Definition appendSuffixIfMatch (patterns : list RegExp) (filePath suffix : string)
  : string :=
  if existsb (fun regexp : RegExp => regexp filePath) patterns
  then filePath +:+ suffix else filePath.

(** Modelled from the spec: [getPossiblyRenamedFilePath] of [utils.ts], of
    which [config.ts] has the import only. The rewrite transform makes a
    real file that a rule applies to discoverable under the name with the
    rule's synthetic suffix appended ("a real .vue file made discoverable
    as name.vue.ts"), and leaves every other name unchanged. The two rule
    lists of the options carry the suffixes [.ts] and [.tsx]. *)
Definition spec_getPossiblyRenamedFilePath (rawFilePath : string)
    (loaderOptions : LoaderOptions) : string :=
  appendSuffixIfMatch (appendTsxSuffixTo loaderOptions)
    (appendSuffixIfMatch (appendTsSuffixTo loaderOptions) rawFilePath ".ts")
    ".tsx".

(** The two together, as [config.ts] imports them. *)
Definition spec_utils {Chalk Diagnostic WebpackError : Type}
    (present : Diagnostic -> string -> WebpackError)
  : @Utils Chalk Diagnostic WebpackError :=
  {| formatErrors := spec_formatErrors present;
     getPossiblyRenamedFilePath := spec_getPossiblyRenamedFilePath |}.

(** ** A small filesystem and compiler to run the functions on *)

Module Example.

(** [name] ends with [suffix]. *)
Definition endsWith (suffix name : string) : bool :=
  let n := String.length name in
  let k := String.length suffix in
  (k <=? n)%nat && String.eqb (String.substring (n - k) k name) suffix.

(** A filesystem holding the given files, with their contents. A listing
    gives the files under [rootDir], in order, kept when no extensions are
    asked for or when the name ends with one of them. *)
Definition sysOf (files : list (string * string)) : System :=
  {| sys_useCaseSensitiveFileNames := true;
     sys_fileExists := fun path => existsb (fun f => String.eqb (fst f) path) files;
     sys_readFile := fun path =>
       snd <$> find (fun f => String.eqb (fst f) path) files;
     sys_readDirectory := fun rootDir extensions _ =>
       List.filter
         (fun name =>
            match extensions with
            | Some exts => existsb (fun ext => endsWith ext name) exts
            | None => true
            end)
         (List.filter (String.prefix rootDir) (map fst files)) |}.

(** A compiler over such a filesystem: every file parses to the compiler
    options [fileOptions], with an error when its content is ["{"]. *)
Definition compilerWith (fileOptions : JS.Obj) (v : Semver.SemVer)
    (files : list (string * string)) : @Compiler string :=
  {| version := v;
     sys := sysOf files;
     readConfigFile := fun path readFile =>
       {| config := {[ "compilerOptions" := JS.Object fileOptions ]};
          error := if bool_decide (readFile path = Some "{")
                   then Some "'}' expected." else None |};
     parseJsonConfigFileContent := fun config host basePath =>
       {| options := default ∅ (JS.as_source (config !! "compilerOptions"));
          fileNames := [];
          errors := [] |} |}.

Definition compilerOf : Semver.SemVer -> list (string * string) -> @Compiler string :=
  compilerWith {[ "strict" := JS.Bool true ]}.

Definition utils : @Utils unit string string :=
  spec_utils (fun diagnostic file => file +:+ ": " +:+ diagnostic).

Definition v (major minor patch : N) : Semver.SemVer :=
  {| Semver.major := major; Semver.minor := minor; Semver.patch := patch;
     Semver.prerelease := [] |}.

Definition loaderAt (resourcePath : string) : LoaderContext :=
  {| resourcePath := resourcePath; context := "/" |}.

Definition optionsFor (configFile : string) (compilerOptions : JS.Obj)
  : LoaderOptions :=
  {| configFile := configFile; compilerOptions := compilerOptions;
     appendTsSuffixTo := []; appendTsxSuffixTo := [] |}.

(** The rule of the [.vue] example: names ending in [.vue] get the [.ts]
    suffix. *)
Definition vueOptions : LoaderOptions :=
  {| configFile := "tsconfig.json"; compilerOptions := ∅;
     appendTsSuffixTo := [endsWith ".vue"]; appendTsxSuffixTo := [] |}.

(** The same rule without regard to case, as [/\.vue$/i]. *)
Definition vueAnyCaseOptions : LoaderOptions :=
  {| configFile := "tsconfig.json"; compilerOptions := ∅;
     appendTsSuffixTo := [fun name => endsWith ".vue" (JS.toLowerCase name)];
     appendTsxSuffixTo := [] |}.

End Example.

(** ** Further reading aids *)

Definition isFileExists (e : Event) : bool :=
  match e with
  | FileExists _ => true
  | _ => false
  end.

(** The path is rooted: it starts with a separator. *)
Definition rooted (path : string) : bool :=
  Path.charIs path 0 Path.CHAR_FORWARD_SLASH.

(** Functions of [./utils] whose formatter drops every diagnostic, as a
    formatter that filters diagnostics may do. *)
Definition droppingUtils : @Utils unit string string :=
  {| formatErrors := fun _ _ _ _ _ _ => [];
     getPossiblyRenamedFilePath := fun rawFileName _ => rawFileName |}.

(** A compiler whose configuration files hold the given properties, read
    without error, over an empty filesystem but for [/p/tsconfig.json]. *)
Definition compilerReading (config : JS.Obj) : @Compiler string :=
  {| version := Example.v 3 5 0;
     sys := Example.sysOf [("/p/tsconfig.json", "")];
     readConfigFile := fun _ _ => {| config := config; error := None |};
     parseJsonConfigFileContent := fun config _ _ =>
       {| options := default ∅ (JS.as_source (config !! "compilerOptions"));
          fileNames := [];
          errors := [] |} |}.

(** * Properties *)

(** ** [Object.assign] *)

Section ObjectAssign.

Import JS.

Implicit Types (to : Target) (F C : gmap string Value) (key : string).

Lemma put_ordinary to key value :
  key <> proto_key ->
  put to key value =
    {| own := <[key := value]> (own to); protoSetter := protoSetter to |}.
Proof.
  intros Hkey. unfold put. apply String.eqb_neq in Hkey. by rewrite Hkey.
Qed.

Lemma set_ordinary (o : gmap string Value) key value :
  key <> proto_key -> set o key value = <[key := value]> o.
Proof. intros Hkey. unfold set. by rewrite put_ordinary. Qed.

Lemma set_compilerOptions (o : gmap string Value) value :
  set o "compilerOptions" value = <["compilerOptions" := value]> o.
Proof. by apply set_ordinary. Qed.

(** Writing one source: for every name but [__proto__] its properties
    win and the target keeps the rest. *)
Lemma lookup_assign_one to source key :
  key <> proto_key ->
  own (assign_one to source) !! key =
    match source ≫= (.!! key) with
    | Some value => Some value
    | None => own to !! key
    end.
Proof.
  intros Hkey. destruct source as [src|]; simpl; [|done].
  apply (map_fold_weak_ind
           (fun (r : Target) (m : gmap string Value) =>
              own r !! key =
                match m !! key with Some v => Some v | None => own to !! key end)).
  - by rewrite lookup_empty.
  - intros i x m r Hfresh IH.
    destruct (decide (i = key)) as [->|Hne].
    + rewrite put_ordinary by done. cbn. by rewrite !lookup_insert_eq.
    + rewrite lookup_insert_ne by done. rewrite <- IH.
      unfold put. destruct (_ && _ && _); cbn; [done|].
      by rewrite lookup_insert_ne.
Qed.

(** Writing one source into an object that has no [__proto__] of its own
    and still reaches the accessor: the object gets none, whatever the
    source holds; the accessor is reached afterwards according to the
    value the source has there. *)
Lemma proto_assign_one to (src : gmap string Value) :
  own to !! proto_key = None ->
  protoSetter to = true ->
  own (assign_one to (Some src)) !! proto_key = None
  /\ protoSetter (assign_one to (Some src)) =
       match src !! proto_key with
       | Some value => setter_after value
       | None => true
       end.
Proof.
  intros Hown Hsetter. cbn [assign_one].
  apply (map_fold_weak_ind
           (fun (r : Target) (m : gmap string Value) =>
              own r !! proto_key = None
              /\ protoSetter r =
                   match m !! proto_key with
                   | Some value => setter_after value
                   | None => true
                   end)).
  - by rewrite lookup_empty.
  - intros i x m r Hfresh [IHown IHsetter].
    destruct (decide (i = proto_key)) as [->|Hne].
    + rewrite Hfresh in IHsetter. rewrite lookup_insert_eq.
      unfold put. rewrite String.eqb_refl, IHown, IHsetter.
      rewrite bool_decide_eq_false_2 by by intros [? ?]. done.
    + rewrite put_ordinary by done. cbn.
      by rewrite !lookup_insert_ne.
Qed.

(** Writing one source into an object that no longer reaches the
    accessor: [__proto__] is a name like any other. *)
Lemma proto_assign_one_unhooked to (src : gmap string Value) :
  protoSetter to = false ->
  own (assign_one to (Some src)) !! proto_key =
    match src !! proto_key with
    | Some value => Some value
    | None => own to !! proto_key
    end.
Proof.
  intros Hsetter. cbn [assign_one].
  apply (map_fold_weak_ind
           (fun (r : Target) (m : gmap string Value) =>
              protoSetter r = false
              /\ own r !! proto_key =
                   match m !! proto_key with
                   | Some value => Some value
                   | None => own to !! proto_key
                   end)).
  - by rewrite lookup_empty.
  - intros i x m r Hfresh [IHsetter IHown].
    unfold put. rewrite IHsetter, andb_false_r. cbn. split; [done|].
    destruct (decide (i = proto_key)) as [->|Hne].
    + by rewrite !lookup_insert_eq.
    + by rewrite !lookup_insert_ne.
Qed.

(** [Object.assign({}, F, C)], at every name but [__proto__]. *)
Lemma lookup_assign_two F C key :
  key <> proto_key ->
  Object_assign ∅ [Some F; Some C] !! key =
    match C !! key with
    | Some value => Some value
    | None => F !! key
    end.
Proof.
  intros Hkey. unfold Object_assign. cbn [foldl].
  rewrite !lookup_assign_one by done.
  cbn [mbind option_bind target_of own]. rewrite lookup_empty.
  by destruct (C !! key), (F !! key).
Qed.

(** [Object.assign({}, F, C)], at [__proto__]: the result has the
    property only if [F] unhooked the accessor and [C] has it. *)
Lemma proto_assign_two F C :
  Object_assign ∅ [Some F; Some C] !! proto_key =
    match F !! proto_key with
    | Some value => if setter_after value then None else C !! proto_key
    | None => None
    end.
Proof.
  unfold Object_assign. cbn [foldl].
  destruct (proto_assign_one (target_of ∅) F) as [Hown Hsetter]; [done..|].
  destruct (F !! proto_key) as [value|] eqn:HF.
  - destruct (setter_after value) eqn:Hafter.
    + by destruct (proto_assign_one (assign_one (target_of ∅) (Some F)) C).
    + rewrite proto_assign_one_unhooked by done. rewrite Hown.
      by destruct (C !! proto_key).
  - by destruct (proto_assign_one (assign_one (target_of ∅) (Some F)) C).
Qed.

Lemma proto_assign_two_plain F C :
  F !! proto_key = None -> Object_assign ∅ [Some F; Some C] !! proto_key = None.
Proof. intros HF. by rewrite proto_assign_two, HF. Qed.

Lemma dom_assign_two F C key :
  key <> proto_key ->
  key ∈ dom (Object_assign ∅ [Some F; Some C]) <-> key ∈ dom F \/ key ∈ dom C.
Proof.
  intros Hkey. rewrite !elem_of_dom, lookup_assign_two by done.
  destruct (C !! key), (F !! key); unfold is_Some; split;
    try (intros [[? ?]|[? ?]]); try (intros [? ?]); eauto; done.
Qed.

(** [Object.assign({}, o, { key: value })] is [o], less a [__proto__] of
    its own, with [key] set. *)
Lemma assign_stamp (o : gmap string Value) key value :
  key <> proto_key ->
  Object_assign ∅ [Some o; Some {[ key := value ]}] =
    <[key := value]> (delete proto_key o).
Proof.
  intros Hkey. apply map_eq. intros k.
  destruct (decide (k = proto_key)) as [->|Hk].
  - rewrite proto_assign_two, lookup_singleton_ne by done.
    rewrite lookup_insert_ne, lookup_delete_eq by done.
    destruct (o !! proto_key) as [v|]; [by destruct (setter_after v) | done].
  - rewrite lookup_assign_two by done.
    destruct (decide (key = k)) as [->|Hne].
    + by rewrite lookup_singleton_eq, lookup_insert_eq.
    + by rewrite lookup_singleton_ne, lookup_insert_ne, lookup_delete_ne.
Qed.

End ObjectAssign.

(** ** [path.dirname] climbs towards a fixed point *)

Section Dirname.

Import Path.

Lemma length_substring_0 (s : string) (n : nat) :
  n <= String.length s -> String.length (String.substring 0 n s) = n.
Proof.
  revert n. induction s as [|c s IH]; intros [|n] Hn; simpl in *; try lia.
  rewrite IH; lia.
Qed.

Lemma charIs_substring_0 (s : string) (n : nat) (code : ascii) :
  0 < n -> charIs (String.substring 0 n s) 0 code = charIs s 0 code.
Proof. destruct s, n; simpl; try lia; done. Qed.

(** Where the loop of [dirname] stops: at a separator inside the path, and
    strictly below the start when no name had been seen yet. *)
Lemma dirname_loop_bound (path : string) (i : nat) (matchedSlash : bool) (e : nat) :
  dirname_loop path i matchedSlash = Some e ->
  1 <= e <= i /\ (matchedSlash = true -> e < i).
Proof.
  revert matchedSlash. induction i as [|i IH]; intros ms; simpl; [done|].
  destruct (charIs path (S i) CHAR_FORWARD_SLASH).
  - destruct ms; simpl.
    + intros H. apply IH in H. lia.
    + intros [= <-]. split; [lia | done].
  - intros H. apply IH in H. lia.
Qed.

(** The three ways [dirname] answers: the root, the current directory, or
    a strictly shorter path that is rooted when the argument is. *)
Lemma dirname_cases (path : string) :
  (dirname path = "/" /\ charIs path 0 CHAR_FORWARD_SLASH = true)
  \/ (dirname path = "." /\ charIs path 0 CHAR_FORWARD_SLASH = false)
  \/ (String.length (dirname path) < String.length path
      /\ (charIs path 0 CHAR_FORWARD_SLASH = true ->
          charIs (dirname path) 0 CHAR_FORWARD_SLASH = true)).
Proof.
  unfold dirname.
  destruct (String.length path =? 0)%nat eqn:Hlen.
  - right; left. split; [done|].
    apply Nat.eqb_eq in Hlen. by destruct path.
  - apply Nat.eqb_neq in Hlen.
    destruct (dirname_loop path (String.length path - 1) true) as [e|] eqn:Hloop.
    + apply dirname_loop_bound in Hloop as [He1 He2]. specialize (He2 eq_refl).
      right; right.
      destruct (charIs path 0 CHAR_FORWARD_SLASH) eqn:Hroot; simpl.
      * destruct (e =? 1)%nat eqn:He.
        -- simpl. split; [lia | done].
        -- unfold slice. rewrite Nat.sub_0_r, length_substring_0 by lia.
           split; [lia|]. intros _. rewrite charIs_substring_0 by lia. done.
      * unfold slice. rewrite Nat.sub_0_r, length_substring_0 by lia.
        split; [lia | done].
    + destruct (charIs path 0 CHAR_FORWARD_SLASH) eqn:Hroot; auto.
Qed.

(** Off its fixed points, [dirname] either shortens the path or lands on a
    fixed point. *)
Lemma dirname_progress (path : string) :
  dirname path <> path ->
  dirname (dirname path) = dirname path
  \/ String.length (dirname path) < String.length path.
Proof.
  intros _. destruct (dirname_cases path) as [[-> _]|[[-> _]|[H _]]]; auto.
Qed.

Lemma up_S (n : nat) (dir : string) : up (S n) dir = up n (dirname dir).
Proof. unfold up. apply Nat.iter_succ_r. Qed.

Lemma up_fixed (n : nat) (dir : string) : dirname dir = dir -> up n dir = dir.
Proof.
  intros H. induction n as [|n IH]; [done|].
  rewrite up_S, H. exact IH.
Qed.

(** Every directory has a first level at which [dirname] is at a fixed
    point, at most one step further than the path is long. *)
Lemma first_fixed_level (dir : string) :
  exists k, k <= String.length dir + 1
    /\ dirname (up k dir) = up k dir
    /\ forall j, j < k -> dirname (up j dir) <> up j dir.
Proof.
  remember (String.length dir) as n eqn:Hn.
  assert (Hle : String.length dir <= n) by lia. clear Hn.
  revert dir Hle. induction n as [|n IH]; intros dir Hle.
  - destruct (string_dec (dirname dir) dir) as [Hfix|Hmove].
    + exists 0. split; [lia|]. split; [done|]. intros j Hj; lia.
    + exists 1. split; [lia|]. split.
      * destruct (dirname_progress dir Hmove) as [H|H]; [exact H | lia].
      * intros j Hj. assert (j = 0) as -> by lia. done.
  - destruct (string_dec (dirname dir) dir) as [Hfix|Hmove].
    + exists 0. split; [lia|]. split; [done|]. intros j Hj; lia.
    + destruct (dirname_progress dir Hmove) as [H|H].
      * exists 1. split; [lia|]. split; [exact H|].
        intros j Hj. assert (j = 0) as -> by lia. done.
      * destruct (IH (dirname dir)) as (k & Hk & Hfixk & Hbefore); [lia|].
        exists (S k). split; [lia|]. rewrite up_S. split; [done|].
        intros [|j] Hj; [done|]. rewrite up_S. apply Hbefore. lia.
Qed.

(** A rooted directory stays rooted on the way up, and its fixed point is
    the root. *)
Lemma up_rooted (n : nat) (dir : string) :
  charIs dir 0 CHAR_FORWARD_SLASH = true ->
  charIs (up n dir) 0 CHAR_FORWARD_SLASH = true.
Proof.
  revert dir. induction n as [|n IH]; intros dir H; [done|].
  rewrite up_S. apply IH.
  destruct (dirname_cases dir) as [[-> _]|[[_ Hno]|[_ Hkeep]]]; auto.
  congruence.
Qed.

Lemma rooted_fixed_is_root (dir : string) :
  charIs dir 0 CHAR_FORWARD_SLASH = true -> dirname dir = dir -> dir = "/".
Proof.
  intros Hroot Hfix.
  destruct (dirname_cases dir) as [[H _]|[[_ H]|[H _]]].
  - congruence.
  - congruence.
  - rewrite Hfix in H. lia.
Qed.

Lemma isAbsolute_rooted (path : string) :
  isAbsolute path = charIs path 0 CHAR_FORWARD_SLASH.
Proof. by destruct path. Qed.

End Dirname.

(** ** Computations *)

Lemma call_fileExists_eq (sys : System) (path : string) :
  call_fileExists sys path = (Done (sys_fileExists sys path), [FileExists path]).
Proof. reflexivity. Qed.

Lemma call_readFile_eq (sys : System) (path : string) :
  call_readFile sys path = (Done (sys_readFile sys path), [ReadFile path]).
Proof. reflexivity. Qed.

Lemma call_readDirectory_eq (sys : System) (rootDir : string)
    (extensions : option (list string)) (rest : ReadDirectoryRest) :
  call_readDirectory sys rootDir extensions rest =
    (Done (sys_readDirectory sys rootDir extensions rest),
     [ReadDirectory rootDir extensions rest]).
Proof. reflexivity. Qed.

Lemma bind_Done {A B : Type} (a : A) (made : list Event) (k : A -> M B) :
  bind (Done a, made) k = (outcome (k a), made ++ calls (k a)).
Proof. unfold bind, outcome, calls. by destruct (k a). Qed.

(** The least level, up to a bound, at which a test succeeds. *)
Lemma least_level (test : nat -> bool) (k : nat) :
  (forall j, j <= k -> test j = false)
  \/ exists i, i <= k /\ test i = true /\ forall j, j < i -> test j = false.
Proof.
  induction k as [|k [IH|(i & Hi & Hti & Hbefore)]].
  - destruct (test 0) eqn:H0.
    + right. exists 0. split; [lia|]. split; [done|]. intros j Hj; lia.
    + left. intros j Hj. by assert (j = 0) as -> by lia.
  - destruct (test (S k)) eqn:HS.
    + right. exists (S k). split; [lia|]. split; [done|].
      intros j Hj. apply IH. lia.
    + left. intros j Hj. destruct (decide (j = S k)) as [->|Hne]; [done|].
      apply IH. lia.
  - right. exists i. split; [lia|]. done.
Qed.

(** ** The walk of [findConfigFile] *)

Section Walk.

Context {Diagnostic : Type}.
Variable compiler : @Compiler Diagnostic.
Variable configFile : string.

(** Whether the file is there at level [i] above [dir]. *)
Let present (dir : string) (i : nat) : bool :=
  sys_fileExists (sys compiler) (Path.join [up i dir; configFile]).

Lemma checks_S (dir : string) (n : nat) :
  checks dir configFile (S n) =
    FileExists (Path.join [dir; configFile])
      :: checks (Path.dirname dir) configFile n.
Proof.
  unfold checks. cbn [seq map]. f_equal.
  rewrite <- seq_shift, map_map. apply map_ext. intros j. by rewrite up_S.
Qed.

Lemma up_beyond (dir : string) (k i : nat) :
  Path.dirname (up k dir) = up k dir -> k <= i -> up i dir = up k dir.
Proof.
  intros Hfix Hle. replace i with ((i - k) + k) by lia.
  unfold up at 1. rewrite Nat.iter_add. by apply up_fixed.
Qed.

(** The walk finds the file at the first level that has it, provided no
    fixed point of [dirname] comes before. *)
Lemma loop_found (i fuel : nat) (dir : string) :
  i < fuel ->
  (forall j, j < i ->
     present dir j = false /\ Path.dirname (up j dir) <> up j dir) ->
  present dir i = true ->
  findConfigFile_loop fuel compiler dir configFile =
    (Done (Some (Path.join [up i dir; configFile])),
     checks dir configFile (S i)).
Proof.
  subst present. cbv beta.
  revert fuel dir. induction i as [|i IH]; intros [|fuel] dir Hfuel Hbefore Hhere;
    try lia; cbn [findConfigFile_loop]; rewrite call_fileExists_eq, bind_Done.
  - change (up 0 dir) with dir in Hhere. rewrite Hhere. reflexivity.
  - destruct (Hbefore 0) as [Hno Hmove]; [lia|].
    change (up 0 dir) with dir in Hno, Hmove. rewrite Hno.
    apply String.eqb_neq in Hmove. rewrite Hmove.
    rewrite (IH fuel (Path.dirname dir)).
    + rewrite <- up_S. by rewrite (checks_S dir (S i)).
    + lia.
    + intros j Hj. rewrite <- !up_S. apply Hbefore. lia.
    + by rewrite <- up_S.
Qed.

(** The walk ends without a result at the first fixed point of [dirname],
    when no level up to there has the file. *)
Lemma loop_absent (k fuel : nat) (dir : string) :
  k < fuel ->
  (forall j, j <= k -> present dir j = false) ->
  (forall j, j < k -> Path.dirname (up j dir) <> up j dir) ->
  Path.dirname (up k dir) = up k dir ->
  findConfigFile_loop fuel compiler dir configFile =
    (Done None, checks dir configFile (S k)).
Proof.
  subst present. cbv beta.
  revert fuel dir. induction k as [|k IH]; intros [|fuel] dir Hfuel Hno Hmove Hfix;
    try lia; cbn [findConfigFile_loop]; rewrite call_fileExists_eq, bind_Done.
  - pose proof (Hno 0 (le_n _)) as H0. change (up 0 dir) with dir in H0, Hfix.
    rewrite H0. apply String.eqb_eq in Hfix. rewrite Hfix. reflexivity.
  - pose proof (Hno 0 ltac:(lia)) as H0. change (up 0 dir) with dir in H0.
    rewrite H0. pose proof (Hmove 0 ltac:(lia)) as Hm.
    change (up 0 dir) with dir in Hm. apply String.eqb_neq in Hm. rewrite Hm.
    rewrite (IH fuel (Path.dirname dir)).
    + by rewrite (checks_S dir (S k)).
    + lia.
    + intros j Hj. rewrite <- up_S. apply Hno. lia.
    + intros j Hj. rewrite <- !up_S. apply Hmove. lia.
    + by rewrite <- !up_S.
Qed.

(** The walk, whole: with enough fuel it returns, having tested the levels
    [0 .. n-1] once each, from the nearest up. *)
Lemma findConfigFile_loop_spec (fuel : nat) (dir : string) :
  enough_fuel dir <= fuel ->
  exists (r : option string) (n : nat),
    findConfigFile_loop fuel compiler dir configFile =
      (Done r, checks dir configFile (S n))
    /\ n <= String.length dir + 1
    /\ match r with
       | Some found =>
           found = Path.join [up n dir; configFile]
           /\ present dir n = true
           /\ forall j, j < n -> present dir j = false
       | None =>
           Path.dirname (up n dir) = up n dir
           /\ forall i, present dir i = false
       end.
Proof.
  unfold enough_fuel. intros Hfuel.
  destruct (first_fixed_level dir) as (k & Hk & Hfix & Hmove).
  destruct (least_level (present dir) k) as [Hno|(i & Hi & Hhere & Hbefore)].
  - exists None, k. split; [apply loop_absent; auto; lia|]. split; [lia|].
    split; [done|]. intros i. destruct (decide (i <= k)) as [Hle|Hgt].
    + by apply Hno.
    + subst present. cbv beta in *. rewrite (up_beyond dir k i) by (done || lia).
      by apply Hno.
  - exists (Some (Path.join [up i dir; configFile])), i.
    split; [|split; [lia|done]].
    apply loop_found; [lia| |done].
    intros j Hj. split; [by apply Hbefore|]. apply Hmove. lia.
Qed.

End Walk.

(** ** Locating the configuration file *)

Section Locate.

Context {Diagnostic : Type}.
Variable cwd : string.
Variable compiler : @Compiler Diagnostic.

Lemma matchesRelative_not_absolute (configFile : string) :
  matchesRelative configFile = true -> Path.isAbsolute configFile = false.
Proof.
  destruct configFile as [|c0 [|c1 rest]]; simpl; try done.
  intros H. apply andb_true_iff in H as [H0 _].
  apply Ascii.eqb_eq in H0. by subst c0.
Qed.

(** C1. For a bare name (a reference that is neither absolute nor of the
    relative form) and any request directory, [findConfigFile] walks
    upwards from the directory: it tests [join(currentDir, reference)]
    level by level, each once and nearest first, and returns the first
    joined path that exists; it returns [undefined] only when no directory
    on the way up has the file, up to and including the directory at which
    [dirname] no longer moves, which is the root [/] for a rooted request
    directory. *)
Theorem findConfigFile_bare_name (fuel : nat) (requestDirPath configFile : string) :
  Path.isAbsolute configFile = false ->
  matchesRelative configFile = false ->
  enough_fuel requestDirPath <= fuel ->
  exists (r : option string) (n : nat),
    findConfigFile cwd fuel compiler requestDirPath configFile =
      (Done r, checks requestDirPath configFile (S n))
    /\ match r with
       | Some found =>
           found = Path.join [up n requestDirPath; configFile]
           /\ sys_fileExists (sys compiler) found = true
           /\ forall j, j < n ->
                sys_fileExists (sys compiler)
                  (Path.join [up j requestDirPath; configFile]) = false
       | None =>
           (forall i,
              sys_fileExists (sys compiler)
                (Path.join [up i requestDirPath; configFile]) = false)
           /\ Path.dirname (up n requestDirPath) = up n requestDirPath
           /\ (Path.isAbsolute requestDirPath = true ->
               up n requestDirPath = "/")
       end.
Proof.
  intros Habs Hrel Hfuel. unfold findConfigFile. rewrite Habs, Hrel.
  destruct (findConfigFile_loop_spec compiler configFile fuel requestDirPath Hfuel)
    as (r & n & Hrun & _ & Hr).
  exists r, n. split; [exact Hrun|].
  destruct r as [found|].
  - destruct Hr as (-> & Hhere & Hbefore). done.
  - destruct Hr as (Hfix & Hnone). split; [done|]. split; [done|].
    intros Hroot. rewrite isAbsolute_rooted in Hroot.
    apply rooted_fixed_is_root; [by apply up_rooted | done].
Qed.

(** C6. An absolute reference is returned as it is when the filesystem
    has it, and [undefined] is returned otherwise; a reference of the
    relative form is resolved against the request directory, and the
    resolved path is returned when the filesystem has it, [undefined]
    otherwise. Either way one existence check is made and nothing else: no
    walk, no fuel used, and the function returns. *)
Theorem findConfigFile_explicit_path (fuel : nat) (requestDirPath configFile : string) :
  (Path.isAbsolute configFile = true ->
   findConfigFile cwd fuel compiler requestDirPath configFile =
     (Done (if sys_fileExists (sys compiler) configFile
            then Some configFile else None),
      [FileExists configFile]))
  /\ (matchesRelative configFile = true ->
      let resolvedPath := Path.resolve cwd [requestDirPath; configFile] in
      findConfigFile cwd fuel compiler requestDirPath configFile =
        (Done (if sys_fileExists (sys compiler) resolvedPath
               then Some resolvedPath else None),
         [FileExists resolvedPath])).
Proof.
  split.
  - intros Habs. unfold findConfigFile. rewrite Habs.
    by rewrite call_fileExists_eq, bind_Done.
  - intros Hrel resolvedPath. unfold findConfigFile.
    rewrite (matchesRelative_not_absolute _ Hrel), Hrel.
    by rewrite call_fileExists_eq, bind_Done.
Qed.

(** C9. The walk ends: from any request directory, replacing the current
    directory by its parent reaches, within as many steps as the path has
    characters plus one, a directory whose parent is itself (the root [/]
    when the request directory is rooted), and no directory before it is
    its own parent. The loop, which stops there at the latest, returns as
    soon as it is given more rounds than that level, whatever the
    filesystem holds: the test [parentPath === requestDirPath] is what
    ends it. *)
Theorem findConfigFile_walk_terminates (requestDirPath configFile : string) :
  exists k,
    k <= String.length requestDirPath + 1
    /\ Path.dirname (up k requestDirPath) = up k requestDirPath
    /\ (forall j, j < k ->
          Path.dirname (up j requestDirPath) <> up j requestDirPath)
    /\ (Path.isAbsolute requestDirPath = true -> up k requestDirPath = "/")
    /\ forall fuel, k < fuel ->
         exists (r : option string) (n : nat),
           n <= k
           /\ findConfigFile_loop fuel compiler requestDirPath configFile =
                (Done r, checks requestDirPath configFile (S n)).
Proof.
  destruct (first_fixed_level requestDirPath) as (k & Hk & Hfix & Hmove).
  exists k. repeat (split; [done|]). split.
  { intros Hroot. rewrite isAbsolute_rooted in Hroot.
    apply rooted_fixed_is_root; [by apply up_rooted | done]. }
  intros fuel Hfuel.
  destruct (least_level
              (fun i => sys_fileExists (sys compiler)
                          (Path.join [up i requestDirPath; configFile])) k)
    as [Hno|(i & Hi & Hhere & Hbefore)].
  - exists None, k. split; [lia|]. by apply loop_absent.
  - exists (Some (Path.join [up i requestDirPath; configFile])), i.
    split; [lia|]. apply loop_found; [lia| |done].
    intros j Hj. split; [by apply Hbefore|]. apply Hmove. lia.
Qed.

End Locate.

(** The walk from [/home/u/p/src] for [tsconfig.json], which is in
    [/home]. *)
Lemma findConfigFile_bare_name_witness :
  let compiler := Example.compilerOf (Example.v 3 5 0)
                    [("/home/tsconfig.json", "{}")] in
  (Path.isAbsolute "tsconfig.json" = false
   /\ matchesRelative "tsconfig.json" = false
   /\ enough_fuel "/home/u/p/src" <= 20)
  /\ exists (r : option string) (n : nat),
       findConfigFile "/" 20 compiler "/home/u/p/src" "tsconfig.json" =
         (Done r, checks "/home/u/p/src" "tsconfig.json" (S n))
       /\ match r with
          | Some found =>
              found = Path.join [up n "/home/u/p/src"; "tsconfig.json"]
              /\ sys_fileExists (sys compiler) found = true
              /\ forall j, j < n ->
                   sys_fileExists (sys compiler)
                     (Path.join [up j "/home/u/p/src"; "tsconfig.json"]) = false
          | None =>
              (forall i,
                 sys_fileExists (sys compiler)
                   (Path.join [up i "/home/u/p/src"; "tsconfig.json"]) = false)
              /\ Path.dirname (up n "/home/u/p/src") = up n "/home/u/p/src"
              /\ (Path.isAbsolute "/home/u/p/src" = true ->
                  up n "/home/u/p/src" = "/")
          end.
Proof.
  intros compiler. split.
  - split; [reflexivity|]. split; [reflexivity|]. vm_compute. lia.
  - apply (findConfigFile_bare_name "/" compiler 20 "/home/u/p/src" "tsconfig.json").
    + reflexivity.
    + reflexivity.
    + vm_compute. lia.
Defined.

Example findConfigFile_bare_name_run :
  findConfigFile "/"  20
    (Example.compilerOf (Example.v 3 5 0) [("/home/tsconfig.json", "{}")])
    "/home/u/p/src" "tsconfig.json"
  = (Done (Some "/home/tsconfig.json"),
     [FileExists "/home/u/p/src/tsconfig.json";
      FileExists "/home/u/p/tsconfig.json";
      FileExists "/home/u/tsconfig.json";
      FileExists "/home/tsconfig.json"]).
Proof. reflexivity. Qed.

Example findConfigFile_bare_name_absent_run :
  findConfigFile "/"  20 (Example.compilerOf (Example.v 3 5 0) [])
    "/home/u" "tsconfig.json"
  = (Done None,
     [FileExists "/home/u/tsconfig.json";
      FileExists "/home/tsconfig.json";
      FileExists "/tsconfig.json"]).
Proof. reflexivity. Qed.

Lemma findConfigFile_explicit_path_witness :
  let compiler := Example.compilerOf (Example.v 3 5 0)
                    [("/home/tsconfig.json", "{}")] in
  (Path.isAbsolute "/home/tsconfig.json" = true
   /\ findConfigFile "/" 0 compiler "/home/u" "/home/tsconfig.json" =
        (Done (Some "/home/tsconfig.json"), [FileExists "/home/tsconfig.json"]))
  /\ (matchesRelative "../tsconfig.json" = true
      /\ findConfigFile "/" 0 compiler "/home/u" "../tsconfig.json" =
           (Done (Some "/home/tsconfig.json"),
            [FileExists "/home/tsconfig.json"]))
  /\ (matchesRelative "./tsconfig.json" = true
      /\ findConfigFile "/" 0 compiler "/home/u" "./tsconfig.json" =
           (Done None, [FileExists "/home/u/tsconfig.json"])).
Proof.
  intros compiler. split; [|split].
  - split; [reflexivity|].
    exact (proj1 (findConfigFile_explicit_path "/" compiler 0 "/home/u"
                    "/home/tsconfig.json") eq_refl).
  - split; [reflexivity|].
    exact (proj2 (findConfigFile_explicit_path "/" compiler 0 "/home/u"
                    "../tsconfig.json") eq_refl).
  - split; [reflexivity|].
    exact (proj2 (findConfigFile_explicit_path "/" compiler 0 "/home/u"
                    "./tsconfig.json") eq_refl).
Defined.

(** ** Loading the configuration file *)

Section Load.

Context {Chalk Diagnostic WebpackError : Type}.
Variable cwd : string.
Variable utils : @Utils Chalk Diagnostic WebpackError.
Variable compiler : @Compiler Diagnostic.
Variable colors : Chalk.
Variable loader : LoaderContext.
Variable loaderOptions : LoaderOptions.
Variable compilerCompatible : bool.
Variable compilerDetailsLogMessage : string.

Lemma logCount_checks (dir name : string) (n : nat) :
  logCount (checks dir name n) = 0.
Proof.
  unfold logCount, checks. generalize 0 at 1.
  induction n as [|n IH]; intros start; [done|]. cbn. apply IH.
Qed.

Lemma logCount_app (xs ys : list Event) :
  logCount (xs ++ ys) = logCount xs + logCount ys.
Proof. unfold logCount. by rewrite List.filter_app, length_app. Qed.

(** With enough fuel [findConfigFile] returns, and calls no logger. *)
Lemma findConfigFile_returns (fuel : nat) (requestDirPath configFile : string) :
  enough_fuel requestDirPath <= fuel ->
  exists (located : option string) (made : list Event),
    findConfigFile cwd fuel compiler requestDirPath configFile =
      (Done located, made)
    /\ logCount made = 0.
Proof.
  intros Hfuel. unfold findConfigFile.
  destruct (Path.isAbsolute configFile).
  { rewrite call_fileExists_eq, bind_Done. by eexists _, _. }
  destruct (matchesRelative configFile).
  { rewrite call_fileExists_eq, bind_Done. by eexists _, _. }
  destruct (findConfigFile_loop_spec compiler configFile fuel requestDirPath Hfuel)
    as (r & n & Hrun & _).
  exists r, (checks requestDirPath configFile (S n)).
  split; [done | apply logCount_checks].
Qed.

(** [getConfigFile], once the file has been looked for: what was loaded
    is returned with the caller's options merged in, unless an error is
    reported for it. *)
Lemma getConfigFile_run (fuel : nat) (located : option string) (made : list Event) :
  findConfigFile cwd fuel compiler (Path.dirname (resourcePath loader))
    (configFile loaderOptions) = (Done located, made) ->
  getConfigFile cwd utils fuel compiler colors loader loaderOptions
    compilerCompatible compilerDetailsLogMessage =
    (Done
       {| configFilePath := located;
          configFile_ :=
            match loadError utils compiler colors loader loaderOptions located with
            | None =>
                {| config :=
                     JS.set (config (loadedConfigFile compiler located))
                       "compilerOptions"
                       (JS.Object
                          (mergedOptions (config (loadedConfigFile compiler located))
                             (compilerOptions loaderOptions)));
                   error := error (loadedConfigFile compiler located) |}
            | Some _ => loadedConfigFile compiler located
            end;
          configFileError :=
            loadError utils compiler colors loader loaderOptions located |},
     made ++ logged located compilerCompatible compilerDetailsLogMessage
          ++ reads located).
Proof.
  intros Hfind. unfold getConfigFile. rewrite Hfind, bind_Done.
  destruct located as [path|]; destruct compilerCompatible; cbn;
    rewrite ?app_nil_r;
    try (destruct (loadError utils compiler colors loader loaderOptions (Some path))
           eqn:Herr; cbn in Herr; rewrite Herr); reflexivity.
Qed.

End Load.

Section LoadClaims.

Context {Chalk Diagnostic WebpackError : Type}.
Variable cwd : string.
Variable compiler : @Compiler Diagnostic.
Variable colors : Chalk.
Variable loader : LoaderContext.
Variable loaderOptions : LoaderOptions.
Variable compilerCompatible : bool.
Variable compilerDetailsLogMessage : string.

(** C2, as the code has it. When no load error is reported,
    [getConfigFile] stores, as the compiler options of the configuration,
    the merge of the file's options [F] and the caller's options [C]:
    leaving the name [__proto__] aside, its keys are those of [F] and of
    [C] together, a key of [C] has the value [C] gives it and a key of [F]
    alone the value [F] gives it; the value is taken whole, one level
    deep, and the other properties of the configuration stay as they
    were. A property [__proto__] of [C] is not copied when [F] has none:
    [Object.assign] writes it through the accessor of the fresh target.
    File options [{a:1,b:2}] under caller options [{b:3,c:4}] give
    [{a:1,b:3,c:4}]. *)
Theorem getConfigFile_merges_caller_over_file
    (utils : @Utils Chalk Diagnostic WebpackError) (fuel : nat) :
  enough_fuel (Path.dirname (resourcePath loader)) <= fuel ->
  (exists (r : ConfigFileResult) (made : list Event),
     getConfigFile cwd utils fuel compiler colors loader loaderOptions
       compilerCompatible compilerDetailsLogMessage = (Done r, made)
     /\ forall F : gmap string JS.Value,
          configFileError r = None ->
          config (loadedConfigFile compiler (configFilePath r))
            !! "compilerOptions" = Some (JS.Object F) ->
          exists merged : gmap string JS.Value,
            config (configFile_ r) !! "compilerOptions" = Some (JS.Object merged)
            /\ (forall key, key <> "__proto__" ->
                  (key ∈ dom merged <->
                   key ∈ dom F \/ key ∈ dom (compilerOptions loaderOptions)))
            /\ (forall key, key <> "__proto__" ->
                  merged !! key =
                    match compilerOptions loaderOptions !! key with
                    | Some value => Some value
                    | None => F !! key
                    end)
            /\ (F !! "__proto__" = None -> merged !! "__proto__" = None)
            /\ (forall key, key <> "compilerOptions" ->
                  config (configFile_ r) !! key =
                    config (loadedConfigFile compiler (configFilePath r)) !! key))
  /\ (forall F C : gmap string JS.Value,
        (forall key, key <> "__proto__" ->
           (key ∈ dom (JS.Object_assign ∅ [Some F; Some C]) <->
            key ∈ dom F \/ key ∈ dom C))
        /\ (forall key, key <> "__proto__" ->
             JS.Object_assign ∅ [Some F; Some C] !! key =
               match C !! key with
               | Some value => Some value
               | None => F !! key
               end)
        /\ (F !! "__proto__" = None ->
            JS.Object_assign ∅ [Some F; Some C] !! "__proto__" = None))
  /\ JS.Object_assign ∅
       [Some {[ "a" := JS.Number 1; "b" := JS.Number 2 ]};
        Some {[ "b" := JS.Number 3; "c" := JS.Number 4 ]}]
     = ({[ "a" := JS.Number 1; "b" := JS.Number 3; "c" := JS.Number 4 ]}
        : gmap string JS.Value).
Proof.
  intros Hfuel. split.
  - destruct (findConfigFile_returns cwd compiler fuel _ (configFile loaderOptions) Hfuel)
      as (located & made & Hfind & _).
    eexists _, _. split; [by apply getConfigFile_run|].
    cbn [configFilePath configFile_ configFileError].
    intros F Herr HF. rewrite Herr. cbn [config].
    exists (JS.Object_assign ∅ [Some F; Some (compilerOptions loaderOptions)]).
    unfold mergedOptions. rewrite HF. cbn [JS.as_source].
    rewrite set_compilerOptions.
    split; [by rewrite lookup_insert_eq|]. split; [|split; [|split]].
    + intros key Hkey. by apply dom_assign_two.
    + intros key Hkey. by apply lookup_assign_two.
    + apply proto_assign_two_plain.
    + intros key Hkey. by rewrite lookup_insert_ne.
  - split.
    + intros F C. split; [|split].
      * intros key Hkey. by apply dom_assign_two.
      * intros key Hkey. by apply lookup_assign_two.
      * apply proto_assign_two_plain.
    + vm_compute. reflexivity.
Qed.

(** C3. When a configuration file was located and reading it reports an
    error, [getConfigFile] returns with the load error set (the error as
    the formatter presents it) and the merge is not done: the configuration
    returned is the one read, its compiler options as the file gave them,
    the caller's options not applied. The load error is set exactly when a
    file was located and read with an error. *)
Theorem getConfigFile_parse_error_skips_merge
    (present : Diagnostic -> string -> WebpackError)
    (rename : string -> LoaderOptions -> string) (fuel : nat) :
  let utils : @Utils Chalk Diagnostic WebpackError :=
    {| formatErrors := spec_formatErrors present;
       getPossiblyRenamedFilePath := rename |} in
  enough_fuel (Path.dirname (resourcePath loader)) <= fuel ->
  exists (r : ConfigFileResult) (made : list Event),
    getConfigFile cwd utils fuel compiler colors loader loaderOptions
      compilerCompatible compilerDetailsLogMessage = (Done r, made)
    /\ outcome (findConfigFile cwd fuel compiler
                  (Path.dirname (resourcePath loader)) (configFile loaderOptions))
       = Done (configFilePath r)
    /\ (forall path err,
          configFilePath r = Some path ->
          error (readConfigFile compiler path (sys_readFile (sys compiler)))
            = Some err ->
          configFileError r = Some (present err path)
          /\ configFile_ r =
               readConfigFile compiler path (sys_readFile (sys compiler)))
    /\ (is_Some (configFileError r) <->
        exists path,
          configFilePath r = Some path
          /\ is_Some (error (readConfigFile compiler path
                               (sys_readFile (sys compiler))))).
Proof.
  intros utils Hfuel.
  destruct (findConfigFile_returns cwd compiler fuel _ (configFile loaderOptions) Hfuel)
    as (located & made & Hfind & _).
  eexists _, _. split; [by apply getConfigFile_run|].
  cbn [configFilePath configFile_ configFileError]. rewrite Hfind.
  split; [done|]. split.
  - intros path err -> Herr. unfold loadError. cbn [loadedConfigFile].
    rewrite Herr. cbn. done.
  - unfold loadError. destruct located as [path|]; cbn [loadedConfigFile].
    + destruct (error (readConfigFile compiler path (sys_readFile (sys compiler))))
        as [err|] eqn:Herr; cbn.
      * split; [|by eauto]. intros _. exists path. by rewrite Herr.
      * split; [by intros [? ?]|]. intros (path' & [= <-] & Hsome).
        rewrite Herr in Hsome. by destruct Hsome.
    + split; [by intros [? ?]|]. by intros (path' & ? & _).
Qed.

(** C8, as the code has it. [getConfigFile] logs at most once: one message
    when a configuration file was located, whatever the compatibility of
    the compiler, and when none was located one message if the compiler is
    compatible and none if it is not. Nothing is logged for the merge. *)
Theorem getConfigFile_logs_at_most_once
    (utils : @Utils Chalk Diagnostic WebpackError) (fuel : nat) :
  enough_fuel (Path.dirname (resourcePath loader)) <= fuel ->
  exists (r : ConfigFileResult) (made : list Event),
    getConfigFile cwd utils fuel compiler colors loader loaderOptions
      compilerCompatible compilerDetailsLogMessage = (Done r, made)
    /\ List.filter isLogInfo made =
         logged (configFilePath r) compilerCompatible compilerDetailsLogMessage
    /\ logCount made =
         match configFilePath r with
         | Some _ => 1
         | None => if compilerCompatible then 1 else 0
         end.
Proof.
  intros Hfuel.
  destruct (findConfigFile_returns cwd compiler fuel _ (configFile loaderOptions) Hfuel)
    as (located & made & Hfind & Hquiet).
  eexists _, _. split; [by apply getConfigFile_run|].
  cbn [configFilePath].
  assert (Hnone : List.filter isLogInfo made = []).
  { apply length_zero_iff_nil. exact Hquiet. }
  split.
  - rewrite List.filter_app, Hnone.
    by destruct located, compilerCompatible.
  - rewrite logCount_app, Hquiet.
    by destruct located, compilerCompatible.
Qed.

End LoadClaims.

(** [getConfigFile] on a project whose [tsconfig.json] sets
    [{a:1,b:2}], called with [{b:3,c:4}]. *)
Lemma getConfigFile_merges_caller_over_file_witness :
  enough_fuel (Path.dirname "/p/src/index.ts") <= 20
  /\ exists (r : ConfigFileResult) (made : list Event)
       (merged : gmap string JS.Value),
       getConfigFile "/" Example.utils 20
         (Example.compilerWith {[ "a" := JS.Number 1; "b" := JS.Number 2 ]}
            (Example.v 3 5 0) [("/p/tsconfig.json", "{}")])
         tt (Example.loaderAt "/p/src/index.ts")
         (Example.optionsFor "tsconfig.json"
            {[ "b" := JS.Number 3; "c" := JS.Number 4 ]})
         false "ts-loader: Using typescript@3.5.0" = (Done r, made)
       /\ config (configFile_ r) !! "compilerOptions" = Some (JS.Object merged)
       /\ merged !! "a" = Some (JS.Number 1)
       /\ merged !! "b" = Some (JS.Number 3)
       /\ merged !! "c" = Some (JS.Number 4)
       /\ merged !! "__proto__" = None.
Proof.
  assert (H : enough_fuel (Path.dirname "/p/src/index.ts") <= 20)
    by (vm_compute; lia).
  split; [exact H|].
  destruct (getConfigFile_merges_caller_over_file "/"
              (Example.compilerWith {[ "a" := JS.Number 1; "b" := JS.Number 2 ]}
                 (Example.v 3 5 0) [("/p/tsconfig.json", "{}")])
              tt (Example.loaderAt "/p/src/index.ts")
              (Example.optionsFor "tsconfig.json"
                 {[ "b" := JS.Number 3; "c" := JS.Number 4 ]})
              false "ts-loader: Using typescript@3.5.0" Example.utils 20 H)
    as [(r & made & Hrun & Hmerge) _].
  assert (Hr : configFilePath r = Some "/p/tsconfig.json"
               /\ configFileError r = None).
  { vm_compute in Hrun. injection Hrun as <- _. split; reflexivity. }
  destruct Hr as [Hpath Herr].
  destruct (Hmerge {[ "a" := JS.Number 1; "b" := JS.Number 2 ]} Herr)
    as (merged & Hstored & _ & Hkeys & Hproto & _).
  { rewrite Hpath. reflexivity. }
  exists r, made, merged. split; [exact Hrun|]. split; [exact Hstored|].
  split; [exact (Hkeys "a" ltac:(discriminate))|].
  split; [exact (Hkeys "b" ltac:(discriminate))|].
  split; [exact (Hkeys "c" ltac:(discriminate))|].
  exact (Hproto eq_refl).
Defined.

Example getConfigFile_merge_run :
  match outcome
          (getConfigFile "/" Example.utils 20
             (Example.compilerWith {[ "a" := JS.Number 1; "b" := JS.Number 2 ]}
                (Example.v 3 5 0) [("/p/tsconfig.json", "{}")])
             tt (Example.loaderAt "/p/src/index.ts")
             (Example.optionsFor "tsconfig.json"
                {[ "b" := JS.Number 3; "c" := JS.Number 4 ]})
             false "ts-loader: Using typescript@3.5.0")
  with
  | Done r =>
      configFilePath r = Some "/p/tsconfig.json"
      /\ configFileError r = None
      /\ config (configFile_ r) !! "compilerOptions" =
           Some (JS.Object
                   {[ "a" := JS.Number 1; "b" := JS.Number 3; "c" := JS.Number 4 ]})
  | OutOfFuel => False
  end.
Proof. vm_compute. repeat split; reflexivity. Qed.

(** C2, as stated, fails: caller options that have a property
    [__proto__] of their own, as options parsed from JSON may, do not give
    that key to the merged options; [Object.assign] hands its value to the
    accessor of the fresh target, which ignores a number. *)
Lemma getConfigFile_proto_key_counterexample :
  let C : gmap string JS.Value :=
    {[ "__proto__" := JS.Number 1; "strict" := JS.Bool true ]} in
  C !! "__proto__" = Some (JS.Number 1)
  /\ JS.Object_assign ∅ [Some {[ "a" := JS.Number 1 ]}; Some C] !! "__proto__"
     = None
  /\ match outcome
             (getConfigFile "/" Example.utils 20
                (Example.compilerWith {[ "a" := JS.Number 1 ]}
                   (Example.v 3 5 0) [("/p/tsconfig.json", "{}")])
                tt (Example.loaderAt "/p/src/index.ts")
                (Example.optionsFor "tsconfig.json" C)
                false "ts-loader: Using typescript@3.5.0")
     with
     | Done r =>
         configFileError r = None
         /\ config (configFile_ r) !! "compilerOptions" =
              Some (JS.Object {[ "a" := JS.Number 1; "strict" := JS.Bool true ]})
     | OutOfFuel => False
     end.
Proof. vm_compute. repeat split; reflexivity. Qed.

(** A [tsconfig.json] that does not parse: the caller's options are left
    out. *)
Lemma getConfigFile_parse_error_skips_merge_witness :
  enough_fuel (Path.dirname "/p/src/index.ts") <= 20
  /\ exists (r : ConfigFileResult) (made : list Event),
       getConfigFile "/" Example.utils 20
         (Example.compilerOf (Example.v 3 5 0) [("/p/tsconfig.json", "{")])
         tt (Example.loaderAt "/p/src/index.ts")
         (Example.optionsFor "tsconfig.json" {[ "b" := JS.Number 3 ]})
         true "ts-loader: Using typescript@3.5.0" = (Done r, made)
       /\ is_Some (configFileError r).
Proof.
  assert (H : enough_fuel (Path.dirname "/p/src/index.ts") <= 20)
    by (vm_compute; lia).
  split; [exact H|].
  destruct (getConfigFile_parse_error_skips_merge "/"
              (Example.compilerOf (Example.v 3 5 0) [("/p/tsconfig.json", "{")])
              tt (Example.loaderAt "/p/src/index.ts")
              (Example.optionsFor "tsconfig.json" {[ "b" := JS.Number 3 ]})
              true "ts-loader: Using typescript@3.5.0"
              (fun diagnostic file => file +:+ ": " +:+ diagnostic)
              spec_getPossiblyRenamedFilePath 20 H)
    as (r & made & Hrun & Hfound & Herr & _).
  exists r, made. split; [exact Hrun|].
  destruct (configFilePath r) as [path|] eqn:Hpath.
  - assert (Hp : path = "/p/tsconfig.json").
    { vm_compute in Hfound. congruence. }
    subst path.
    destruct (Herr "/p/tsconfig.json" "'}' expected." eq_refl eq_refl) as [-> _].
    by eexists.
  - vm_compute in Hfound. discriminate Hfound.
Defined.

Example getConfigFile_parse_error_run :
  match outcome
          (getConfigFile "/" Example.utils 20
             (Example.compilerOf (Example.v 3 5 0) [("/p/tsconfig.json", "{")])
             tt (Example.loaderAt "/p/src/index.ts")
             (Example.optionsFor "tsconfig.json" {[ "b" := JS.Number 3 ]})
             true "ts-loader: Using typescript@3.5.0")
  with
  | Done r =>
      configFileError r = Some "/p/tsconfig.json: '}' expected."
      /\ config (configFile_ r) !! "compilerOptions" =
           Some (JS.Object {[ "strict" := JS.Bool true ]})
  | OutOfFuel => False
  end.
Proof. vm_compute. repeat split; reflexivity. Qed.

Lemma getConfigFile_logs_at_most_once_witness :
  enough_fuel (Path.dirname "/p/src/index.ts") <= 20
  /\ exists (r : ConfigFileResult) (made : list Event),
       getConfigFile "/" Example.utils 20
         (Example.compilerOf (Example.v 3 5 0) [("/p/tsconfig.json", "{}")])
         tt (Example.loaderAt "/p/src/index.ts")
         (Example.optionsFor "tsconfig.json" ∅)
         true "ts-loader: Using typescript@3.5.0" = (Done r, made)
       /\ logCount made =
            match configFilePath r with
            | Some _ => 1
            | None => 1
            end.
Proof.
  assert (H : enough_fuel (Path.dirname "/p/src/index.ts") <= 20)
    by (vm_compute; lia).
  split; [exact H|].
  destruct (getConfigFile_logs_at_most_once "/"
              (Example.compilerOf (Example.v 3 5 0) [("/p/tsconfig.json", "{}")])
              tt (Example.loaderAt "/p/src/index.ts")
              (Example.optionsFor "tsconfig.json" ∅)
              true "ts-loader: Using typescript@3.5.0" Example.utils 20 H)
    as (r & made & Hrun & _ & Hcount).
  exists r, made. split; [exact Hrun | exact Hcount].
Defined.

(** C8, as stated, fails: with no configuration file anywhere above the
    entry file and a compiler that is not compatible, [getConfigFile]
    returns without having logged anything. *)
Lemma getConfigFile_logs_nothing_counterexample :
  let run :=
    getConfigFile "/" Example.utils 20
      (Example.compilerOf (Example.v 3 5 0) [])
      tt (Example.loaderAt "/p/index.ts")
      (Example.optionsFor "tsconfig.json" ∅)
      false "ts-loader: Using typescript@3.5.0" in
  calls run = [FileExists "/p/tsconfig.json"; FileExists "/tsconfig.json"]
  /\ logCount (calls run) = 0
  /\ match outcome run with
     | Done r => configFilePath r = None /\ configFileError r = None
     | OutOfFuel => False
     end.
Proof. vm_compute. repeat split; reflexivity. Qed.

(** ** The suffix-appending host *)

Section Host.

Context {Chalk Diagnostic WebpackError : Type}.
Variable utils : @Utils Chalk Diagnostic WebpackError.
Variable sys : System.
Variable loaderOptions : LoaderOptions.

Let transformFileName (rawFileName : string) : string :=
  getPossiblyRenamedFilePath utils rawFileName loaderOptions.

Lemma includes_In (xs : list string) (x : string) :
  JS.includes xs x = true <-> In x xs.
Proof.
  unfold JS.includes. rewrite existsb_exists. split.
  - intros (y & Hy & Heq). apply String.eqb_eq in Heq. by subst.
  - intros Hx. exists x. split; [done | apply String.eqb_refl].
Qed.

(** The [reduce] of [readDirectory] collects the discovered extensions, in
    the order of the listing. *)
Lemma customExtensions_fold (extensions allFiles exts : list string) :
  fold_left
    (fun (exts : list string) (fileName : string) =>
       let renamed := transformFileName fileName in
       if negb (String.eqb renamed fileName)
          && JS.includes extensions (JS.toLowerCase (Path.extname renamed))
       then
         let ext := JS.toLowerCase (Path.extname fileName) in
         if (0 <? String.length ext)%nat then exts ++ [ext] else exts
       else exts)
    allFiles exts
  = exts ++ discoveredExtensions transformFileName extensions allFiles.
Proof.
  unfold discoveredExtensions. revert exts.
  induction allFiles as [|fileName files IH]; intros exts; cbn [fold_left].
  - cbn. by rewrite app_nil_r.
  - rewrite IH. cbn [List.filter].
    destruct (negb (String.eqb (transformFileName fileName) fileName)
              && JS.includes extensions
                   (JS.toLowerCase (Path.extname (transformFileName fileName))));
      [|done].
    cbn [map List.filter].
    destruct (JS.toLowerCase (Path.extname fileName)) as [|c ext]; cbn; [done|].
    by rewrite <- app_assoc.
Qed.

(** Which extensions are discovered. *)
Lemma discoveredExtensions_In (extensions allFiles : list string) (ext : string) :
  In ext (discoveredExtensions transformFileName extensions allFiles) <->
  ext <> ""
  /\ exists fileName,
       In fileName allFiles
       /\ transformFileName fileName <> fileName
       /\ In (JS.toLowerCase (Path.extname (transformFileName fileName))) extensions
       /\ ext = JS.toLowerCase (Path.extname fileName).
Proof.
  unfold discoveredExtensions. rewrite filter_In, in_map_iff. split.
  - intros [(fileName & <- & Hin) Hne]. apply filter_In in Hin as [Hin Hq].
    apply andb_true_iff in Hq as [Hchanged Hasked].
    apply negb_true_iff, String.eqb_neq in Hchanged.
    apply negb_true_iff, String.eqb_neq in Hne.
    apply includes_In in Hasked. split; [done|]. by exists fileName.
  - intros (Hne & fileName & Hin & Hchanged & Hasked & ->). split.
    + exists fileName. split; [done|]. apply filter_In. split; [done|].
      apply andb_true_iff. split.
      * by apply negb_true_iff, String.eqb_neq.
      * by apply includes_In.
    + by apply negb_true_iff, String.eqb_neq.
Qed.

(** C5. With both rule lists empty, [getSuffixAppendingParseConfigHost]
    returns [sys] itself: each method of the host answers what the
    capability of [sys] answers on the same arguments, and makes that one
    call to [sys] and no other; the case-sensitivity flag is that of
    [sys]. *)
Theorem getSuffixAppendingParseConfigHost_no_rules :
  appendTsSuffixTo loaderOptions = [] ->
  appendTsxSuffixTo loaderOptions = [] ->
  let host := getSuffixAppendingParseConfigHost utils sys loaderOptions in
  host = host_of_sys sys
  /\ useCaseSensitiveFileNames host = sys_useCaseSensitiveFileNames sys
  /\ (forall path,
        fileExists host path =
          (Done (sys_fileExists sys path), [FileExists path]))
  /\ (forall path,
        readFile host path = (Done (sys_readFile sys path), [ReadFile path]))
  /\ (forall rootDir extensions rest,
        readDirectory host rootDir extensions rest =
          (Done (sys_readDirectory sys rootDir (Some extensions) rest),
           [ReadDirectory rootDir (Some extensions) rest])).
Proof.
  intros Hts Htsx host. subst host. unfold getSuffixAppendingParseConfigHost.
  rewrite Hts, Htsx. cbn. done.
Qed.

(** With a rule in force, the host's methods on a single file apply the
    rewrite to the name and then make the one call to [sys]. *)
Lemma getSuffixAppendingParseConfigHost_rules_file (path : string) :
  appendTsSuffixTo loaderOptions <> [] \/ appendTsxSuffixTo loaderOptions <> [] ->
  let host := getSuffixAppendingParseConfigHost utils sys loaderOptions in
  fileExists host path =
    (Done (sys_fileExists sys (transformFileName path)),
     [FileExists (transformFileName path)])
  /\ readFile host path =
       (Done (sys_readFile sys (transformFileName path)),
        [ReadFile (transformFileName path)]).
Proof.
  intros Hrules host. subst host. unfold getSuffixAppendingParseConfigHost.
  destruct (appendTsSuffixTo loaderOptions), (appendTsxSuffixTo loaderOptions);
    cbn; try done.
  by destruct Hrules.
Qed.

(** The two passes of [readDirectory]. *)
Lemma readDirectory_run (rootDir : string) (extensions : list string)
    (rest : ReadDirectoryRest) :
  appendTsSuffixTo loaderOptions <> [] \/ appendTsxSuffixTo loaderOptions <> [] ->
  let allFiles := sys_readDirectory sys rootDir None no_rest in
  let asked :=
    extensions ++ discoveredExtensions transformFileName extensions allFiles in
  readDirectory (getSuffixAppendingParseConfigHost utils sys loaderOptions)
    rootDir extensions rest =
    (Done (map transformFileName (sys_readDirectory sys rootDir (Some asked) rest)),
     [ReadDirectory rootDir None no_rest; ReadDirectory rootDir (Some asked) rest]).
Proof.
  intros Hrules allFiles asked.
  assert (Hactive :
    (length (appendTsSuffixTo loaderOptions) =? 0)%nat
    && (length (appendTsxSuffixTo loaderOptions) =? 0)%nat = false).
  { destruct (appendTsSuffixTo loaderOptions), (appendTsxSuffixTo loaderOptions);
      try done. by destruct Hrules. }
  unfold getSuffixAppendingParseConfigHost. rewrite Hactive.
  cbn [readDirectory]. rewrite call_readDirectory_eq, bind_Done.
  fold transformFileName.
  rewrite (customExtensions_fold extensions _ []). cbn [app].
  rewrite call_readDirectory_eq, bind_Done. reflexivity.
Qed.

End Host.

Section HostClaims.

Context {Chalk Diagnostic WebpackError : Type}.
Variable utils : @Utils Chalk Diagnostic WebpackError.
Variable sys : System.
Variable loaderOptions : LoaderOptions.

(** C4, as the code has it. With a rule in force,
    [readDirectory(rootDir, extensions, ...rest)] first asks [sys] for the
    bare listing of [rootDir]; every listed file that the rewrite renames
    to a name whose lower-cased extension is among those asked for
    contributes its own extension, lower-cased, unless it has none; [sys]
    is then asked a second time, with the extensions asked for followed by
    the contributed ones, and the names it answers are passed through the
    rewrite one by one, in the order [sys] gave them, none dropped and
    none merged. No other call to [sys] is made. With the rule that gives
    [.vue] files the [.ts] suffix and [.ts] asked for, a directory holding
    [a.vue] and [b.ts] lists as [a.vue.ts], [b.ts]. *)
Theorem readDirectory_two_passes (rootDir : string) (extensions : list string)
    (rest : ReadDirectoryRest) :
  appendTsSuffixTo loaderOptions <> [] \/ appendTsxSuffixTo loaderOptions <> [] ->
  let transformFileName := fun rawFileName =>
    getPossiblyRenamedFilePath utils rawFileName loaderOptions in
  let allFiles := sys_readDirectory sys rootDir None no_rest in
  let extra := discoveredExtensions transformFileName extensions allFiles in
  let listed := sys_readDirectory sys rootDir (Some (extensions ++ extra)) rest in
  readDirectory (getSuffixAppendingParseConfigHost utils sys loaderOptions)
    rootDir extensions rest =
    (Done (map transformFileName listed),
     [ReadDirectory rootDir None no_rest;
      ReadDirectory rootDir (Some (extensions ++ extra)) rest])
  /\ (forall ext,
        In ext extra <->
        ext <> ""
        /\ exists fileName,
             In fileName allFiles
             /\ transformFileName fileName <> fileName
             /\ In (JS.toLowerCase (Path.extname (transformFileName fileName)))
                  extensions
             /\ ext = JS.toLowerCase (Path.extname fileName))
  /\ length (map transformFileName listed) = length listed
  /\ (forall i,
        map transformFileName listed !! i = transformFileName <$> listed !! i)
  /\ readDirectory
       (getSuffixAppendingParseConfigHost Example.utils
          (Example.sysOf [("a.vue", ""); ("b.ts", "")]) Example.vueOptions)
       "" [".ts"] no_rest =
       (Done ["a.vue.ts"; "b.ts"],
        [ReadDirectory "" None no_rest;
         ReadDirectory "" (Some [".ts"; ".vue"]) no_rest]).
Proof.
  intros Hrules transformFileName allFiles extra listed.
  split; [by apply readDirectory_run|].
  split; [intros ext; apply discoveredExtensions_In|].
  split; [apply length_map|].
  split; [intros i; apply list_lookup_fmap|].
  reflexivity.
Qed.

End HostClaims.

Lemma getSuffixAppendingParseConfigHost_no_rules_witness :
  let sys := Example.sysOf [("a.vue", ""); ("b.ts", "")] in
  let host :=
    getSuffixAppendingParseConfigHost Example.utils sys
      (Example.optionsFor "tsconfig.json" ∅) in
  host = host_of_sys sys
  /\ fileExists host "a.vue.ts" = (Done false, [FileExists "a.vue.ts"])
  /\ readDirectory host "" [".ts"] no_rest =
       (Done ["b.ts"], [ReadDirectory "" (Some [".ts"]) no_rest]).
Proof.
  intros sys host.
  destruct (getSuffixAppendingParseConfigHost_no_rules Example.utils sys
              (Example.optionsFor "tsconfig.json" ∅) eq_refl eq_refl)
    as (Hhost & _ & Hexists & _ & Hlist).
  split; [exact Hhost|]. split; [apply Hexists | apply Hlist].
Defined.

Lemma readDirectory_two_passes_witness :
  (appendTsSuffixTo Example.vueOptions <> []
   \/ appendTsxSuffixTo Example.vueOptions <> [])
  /\ readDirectory
       (getSuffixAppendingParseConfigHost Example.utils
          (Example.sysOf [("A.VUE", ""); ("a.vue", ""); ("b.ts", ""); ("c.js", "")])
          Example.vueOptions)
       "" [".ts"] no_rest =
       (Done ["a.vue.ts"; "b.ts"],
        [ReadDirectory "" None no_rest;
         ReadDirectory "" (Some [".ts"; ".vue"]) no_rest]).
Proof.
  assert (H : appendTsSuffixTo Example.vueOptions <> []
              \/ appendTsxSuffixTo Example.vueOptions <> []).
  { left. discriminate. }
  split; [exact H|].
  exact (proj1 (readDirectory_two_passes Example.utils
                  (Example.sysOf [("A.VUE", ""); ("a.vue", ""); ("b.ts", "");
                                  ("c.js", "")])
                  Example.vueOptions "" [".ts"] no_rest H)).
Defined.

(** C4, as stated, fails: a file [A.VUE] that the rule renames has the
    extension [.VUE], yet what the second call asks for besides [.ts] is
    [.vue]; [.VUE] is not among the extensions asked for. *)
Lemma readDirectory_extension_case_counterexample :
  let host :=
    getSuffixAppendingParseConfigHost Example.utils
      (Example.sysOf [("A.VUE", ""); ("b.ts", "")]) Example.vueAnyCaseOptions in
  spec_getPossiblyRenamedFilePath "A.VUE" Example.vueAnyCaseOptions = "A.VUE.ts"
  /\ JS.includes [".ts"] (Path.extname "A.VUE.ts") = true
  /\ Path.extname "A.VUE" = ".VUE"
  /\ calls (readDirectory host "" [".ts"] no_rest) =
       [ReadDirectory "" None no_rest;
        ReadDirectory "" (Some [".ts"; ".vue"]) no_rest]
  /\ JS.includes [".ts"; ".vue"] ".VUE" = false.
Proof. repeat split; reflexivity. Qed.

(** A renamed file without an extension contributes nothing to the
    second call. *)
Example readDirectory_no_extension_run :
  readDirectory
    (getSuffixAppendingParseConfigHost Example.utils
       (Example.sysOf [("LICENSE", ""); ("b.ts", "")])
       {| configFile := "tsconfig.json"; compilerOptions := ∅;
          appendTsSuffixTo := [String.eqb "LICENSE"]; appendTsxSuffixTo := [] |})
    "" [".ts"] no_rest
  = (Done ["b.ts"],
     [ReadDirectory "" None no_rest; ReadDirectory "" (Some [".ts"]) no_rest]).
Proof. reflexivity. Qed.

(** ** Parsing the configuration *)

Section Parse.

Context {Chalk Diagnostic WebpackError : Type}.
Variable utils : @Utils Chalk Diagnostic WebpackError.
Variable compiler : @Compiler Diagnostic.
Variable configFile : @ConfigFile Diagnostic.
Variable basePath : string.
Variable loaderOptions : LoaderOptions.

(** What the compiler's own parser answers. *)
Let parsed : ParsedCommandLine :=
  parseJsonConfigFileContent compiler (config configFile)
    (getSuffixAppendingParseConfigHost utils (sys compiler) loaderOptions)
    basePath.

(** [semver.gte(version, '3.5.0')] on the parts of the version: above
    3.5.0 by the numbers, or 3.5.0 itself and not a pre-release of it. *)
Lemma gte_v3_5_0 (version : Semver.SemVer) :
  Semver.gte version v3_5_0 = true <->
  (3 < Semver.major version)%N
  \/ (Semver.major version = 3%N /\ (5 < Semver.minor version)%N)
  \/ (Semver.major version = 3%N /\ Semver.minor version = 5%N
      /\ ((0 < Semver.patch version)%N
          \/ (Semver.patch version = 0%N /\ Semver.prerelease version = []))).
Proof.
  destruct version as [major minor patch pre].
  unfold Semver.gte, Semver.compare, Semver.compareMain, Semver.comparePre.
  cbn [Semver.major Semver.minor Semver.patch Semver.prerelease v3_5_0].
  destruct (N.compare_spec major 3) as [->|Hlt|Hgt].
  - destruct (N.compare_spec minor 5) as [->|Hlt|Hgt].
    + destruct (N.compare_spec patch 0) as [->|Hlt|Hgt].
      * destruct pre; split; try done; try lia; intuition (try lia; try done).
      * lia.
      * split; [intros _|done]. right; right. intuition lia.
    + split; [done|]. intros [H|[[_ H]|(_ & H & _)]]; lia.
    + split; [intros _|done]. right; left. lia.
  - split; [done|]. intros [H|[[H _]|(H & _)]]; lia.
  - split; [intros _|done]. left. lia.
Qed.

(** C7. From version 3.5.0 on (by the numbers above it, or 3.5.0 itself
    as released), [getConfigParseResult] returns what the parser answered
    with the options stamped: the property [configFilePath] records the
    located path, as the string it is, and every other option is as the
    parser gave it. Below 3.5.0 it returns the parser's answer as it is:
    the options are unchanged and no property is added. *)
Theorem getConfigParseResult_version_gate (configFilePath : option string) :
  let result :=
    getConfigParseResult utils compiler configFile basePath configFilePath
      loaderOptions in
  let stamp :=
    match configFilePath with
    | Some path => JS.Str path
    | None => JS.Undefined
    end in
  let atLeast :=
    let v := version compiler in
    (3 < Semver.major v)%N
    \/ (Semver.major v = 3%N /\ (5 < Semver.minor v)%N)
    \/ (Semver.major v = 3%N /\ Semver.minor v = 5%N
        /\ ((0 < Semver.patch v)%N
            \/ (Semver.patch v = 0%N /\ Semver.prerelease v = []))) in
  fileNames result = fileNames parsed
  /\ errors result = errors parsed
  /\ (atLeast ->
      options result !! "configFilePath" = Some stamp
      /\ (forall path, configFilePath = Some path ->
            options result !! "configFilePath" = Some (JS.Str path))
      /\ options result =
           <["configFilePath" := stamp]> (delete "__proto__" (options parsed))
      /\ forall key, key <> "configFilePath" -> key <> "__proto__" ->
           options result !! key = options parsed !! key)
  /\ (~ atLeast ->
      result = parsed
      /\ options result !! "configFilePath" =
           options parsed !! "configFilePath").
Proof.
  intros result stamp atLeast. subst result parsed. unfold getConfigParseResult.
  assert (Hgate : Semver.gte (version compiler) v3_5_0 = true <-> atLeast)
    by apply gte_v3_5_0.
  destruct (Semver.gte (version compiler) v3_5_0); cbn [fileNames errors options].
  - split; [done|]. split; [done|]. split; [|by intros []; apply Hgate].
    intros _. rewrite assign_stamp by done.
    assert (Hstamp : string_or_undefined configFilePath = stamp)
      by by destruct configFilePath.
    rewrite Hstamp. split; [by rewrite lookup_insert_eq|]. split; [|split; [done|]].
    + intros path ->. by rewrite lookup_insert_eq.
    + intros key Hkey Hproto.
      by rewrite lookup_insert_ne, lookup_delete_ne.
  - split; [done|]. split; [done|]. split; [|done].
    intros Hat. apply Hgate in Hat. discriminate Hat.
Qed.

(** C10. From version 3.5.0 on the property [configFilePath] is set
    whether or not a file was located: with none located the options
    carry the key, and its value is [undefined]. *)
Theorem getConfigParseResult_stamps_undefined :
  Semver.gte (version compiler) v3_5_0 = true ->
  let result :=
    getConfigParseResult utils compiler configFile basePath None loaderOptions in
  options result !! "configFilePath" = Some JS.Undefined
  /\ "configFilePath" ∈ dom (options result).
Proof.
  intros Hgte result. subst result. unfold getConfigParseResult.
  rewrite Hgte. cbn [options]. rewrite assign_stamp by done.
  rewrite elem_of_dom, lookup_insert_eq. split; [done | by eexists].
Qed.

End Parse.

Example gte_examples :
  let version major minor patch pre :=
    {| Semver.major := major; Semver.minor := minor; Semver.patch := patch;
       Semver.prerelease := pre |} in
  map (fun v => Semver.gte v v3_5_0)
    [version 3 5 0 []; version 3 4 5 []; version 4 0 0 []; version 3 10 0 [];
     version 3 5 0 [Semver.Alphanumeric "dev"; Semver.Numeric 20190504];
     version 3 5 1 [Semver.Alphanumeric "rc"]; version 2 9 2 []]%N
  = [true; false; true; true; false; true; false].
Proof. reflexivity. Qed.

Lemma getConfigParseResult_stamps_undefined_witness :
  let compiler := Example.compilerOf (Example.v 3 5 0) [] in
  Semver.gte (version compiler) v3_5_0 = true
  /\ options
       (getConfigParseResult Example.utils compiler
          {| config := emptyConfig; error := None |} "/p" None
          (Example.optionsFor "tsconfig.json" ∅))
       !! "configFilePath" = Some JS.Undefined.
Proof.
  intros compiler. split; [reflexivity|].
  exact (proj1 (getConfigParseResult_stamps_undefined Example.utils compiler
                  {| config := emptyConfig; error := None |} "/p"
                  (Example.optionsFor "tsconfig.json" ∅) eq_refl)).
Defined.

Example getConfigParseResult_stamp_run :
  options
    (getConfigParseResult Example.utils
       (Example.compilerOf (Example.v 3 5 0) [])
       {| config := {[ "compilerOptions" :=
                         JS.Object {[ "strict" := JS.Bool true ]} ]};
          error := None |}
       "/p" (Some "/p/tsconfig.json") (Example.optionsFor "tsconfig.json" ∅))
  = {[ "strict" := JS.Bool true;
       "configFilePath" := JS.Str "/p/tsconfig.json" ]}.
Proof. vm_compute. reflexivity. Qed.

Example getConfigParseResult_below_run :
  options
    (getConfigParseResult Example.utils
       (Example.compilerOf (Example.v 3 4 5) [])
       {| config := {[ "compilerOptions" :=
                         JS.Object {[ "strict" := JS.Bool true ]} ]};
          error := None |}
       "/p" (Some "/p/tsconfig.json") (Example.optionsFor "tsconfig.json" ∅))
  = {[ "strict" := JS.Bool true ]}.
Proof. vm_compute. reflexivity. Qed.

(** * Further properties of [config.ts] *)

(** ** Paths returned by [findConfigFile] *)

Section Returned.

Context {Diagnostic : Type}.
Variable compiler : @Compiler Diagnostic.

Lemma rooted_append (a b : string) : rooted a = true -> rooted (a +:+ b) = true.
Proof. by destruct a. Qed.

Lemma rooted_nonempty (a : string) :
  rooted a = true -> (String.length a =? 0)%nat = false.
Proof. by destruct a. Qed.

Lemma normalize_rooted (path : string) :
  rooted path = true -> rooted (Path.normalize path) = true.
Proof.
  intros Hroot. unfold Path.normalize.
  rewrite (rooted_nonempty _ Hroot). unfold rooted in Hroot. rewrite Hroot.
  cbv zeta.
  destruct (String.length (Path.normalizeString path (negb true)) =? 0)%nat;
    reflexivity.
Qed.

Lemma join_rooted (dir name : string) :
  rooted dir = true -> rooted (Path.join [dir; name]) = true.
Proof.
  intros Hroot. unfold Path.join. cbn [List.filter].
  assert (Hlen : (0 <? String.length dir)%nat = true) by by destruct dir.
  rewrite Hlen.
  destruct (0 <? String.length name)%nat; apply normalize_rooted; cbn.
  - by apply rooted_append.
  - done.
Qed.

Lemma resolve_loop_rooted (cwd : string) (args_rev : list string) (acc : string) :
  rooted cwd = true -> snd (Path.resolve_loop cwd args_rev acc) = true.
Proof.
  intros Hcwd. revert acc.
  induction args_rev as [|path before IH]; intros acc; cbn.
  - exact Hcwd.
  - destruct (String.length path =? 0)%nat; [apply IH|].
    destruct (Path.charIs path 0 Path.CHAR_FORWARD_SLASH); [done | apply IH].
Qed.

Lemma resolve_rooted (cwd : string) (args : list string) :
  rooted cwd = true -> rooted (Path.resolve cwd args) = true.
Proof.
  intros Hcwd. unfold Path.resolve.
  pose proof (resolve_loop_rooted cwd (rev args) "" Hcwd) as Habs.
  destruct (Path.resolve_loop cwd (rev args) "") as [resolvedPath abs].
  cbn in Habs. subst abs. reflexivity.
Qed.

(** From a rooted directory [resolve] never reads the working directory. *)
Lemma resolve_from_rooted (cwd cwd' dir name : string) :
  rooted dir = true ->
  Path.resolve cwd [dir; name] = Path.resolve cwd' [dir; name].
Proof.
  intros Hroot. unfold Path.resolve. cbn [rev app Path.resolve_loop].
  rewrite (rooted_nonempty _ Hroot). unfold rooted in Hroot. rewrite Hroot.
  destruct (String.length name =? 0)%nat; [done|].
  by destruct (Path.charIs name 0 Path.CHAR_FORWARD_SLASH).
Qed.

Lemma checks_all_fileExists (dir name : string) (n : nat) :
  forallb isFileExists (checks dir name n) = true.
Proof.
  unfold checks. generalize 0 at 1.
  induction n as [|n IH]; intros start; [done|]. cbn. apply IH.
Qed.

Lemma checks_last (dir name : string) (n : nat) :
  last (checks dir name (S n)) = Some (FileExists (Path.join [up n dir; name])).
Proof.
  unfold checks. rewrite seq_S, map_app. cbn [map]. apply last_snoc.
Qed.


(** X1. Whatever kind of reference it is given, [findConfigFile] returns
    (with fuel for the walk) and never returns a path the filesystem does
    not have: a path it returns is one for which [sys.fileExists] answered
    true, and that check is the last call it made. It calls nothing but
    [sys.fileExists]. *)
Theorem findConfigFile_returns_existing (cwd : string) (fuel : nat)
    (requestDirPath configFile : string) :
  enough_fuel requestDirPath <= fuel ->
  exists (r : option string) (made : list Event),
    findConfigFile cwd fuel compiler requestDirPath configFile = (Done r, made)
    /\ forallb isFileExists made = true
    /\ made <> []
    /\ forall found, r = Some found ->
         sys_fileExists (sys compiler) found = true
         /\ last made = Some (FileExists found).
Proof.
  intros Hfuel. unfold findConfigFile.
  destruct (Path.isAbsolute configFile).
  { rewrite call_fileExists_eq, bind_Done. eexists _, _. split; [done|].
    split; [done|]. split; [done|]. cbn.
    destruct (sys_fileExists (sys compiler) configFile) eqn:Hex; [|done].
    by intros found [= <-]. }
  destruct (matchesRelative configFile).
  { rewrite call_fileExists_eq, bind_Done. eexists _, _. split; [done|].
    split; [done|]. split; [done|]. cbn.
    destruct (sys_fileExists (sys compiler)
                (Path.resolve cwd [requestDirPath; configFile])) eqn:Hex; [|done].
    by intros found [= <-]. }
  destruct (findConfigFile_loop_spec compiler configFile fuel requestDirPath Hfuel)
    as (r & n & Hrun & _ & Hr).
  exists r, (checks requestDirPath configFile (S n)). split; [done|].
  split; [apply checks_all_fileExists|]. split; [done|].
  intros found ->. destruct Hr as (-> & Hhere & _).
  split; [exact Hhere | apply checks_last].
Qed.

(** The walk from a rooted directory finds rooted paths only. *)
Lemma findConfigFile_loop_rooted (fuel : nat) (dir configFile : string)
    (found : string) (made : list Event) :
  rooted dir = true ->
  findConfigFile_loop fuel compiler dir configFile = (Done (Some found), made) ->
  rooted found = true.
Proof.
  revert dir made.
  induction fuel as [|fuel IH]; intros dir made Hdir; cbn [findConfigFile_loop];
    [done|].
  rewrite call_fileExists_eq, bind_Done.
  destruct (sys_fileExists (sys compiler) (Path.join [dir; configFile])).
  { cbn. intros [= <- _]. by apply join_rooted. }
  destruct (String.eqb (Path.dirname dir) dir); [done|].
  destruct (findConfigFile_loop fuel compiler (Path.dirname dir) configFile)
    as [out made'] eqn:Hrec.
  cbn. intros [= -> _]. eapply IH; [|exact Hrec].
  change (Path.dirname dir) with (up 1 dir). by apply up_rooted.
Qed.

(** X2. From a rooted request directory, and with a rooted working
    directory, every path [findConfigFile] returns is absolute, as its
    documentation promises ("The absolute path to the tsconfig file"). *)
Theorem findConfigFile_returns_absolute (cwd : string) (fuel : nat)
    (requestDirPath configFile : string) (found : string) (made : list Event) :
  Path.isAbsolute requestDirPath = true ->
  Path.isAbsolute cwd = true ->
  findConfigFile cwd fuel compiler requestDirPath configFile =
    (Done (Some found), made) ->
  Path.isAbsolute found = true.
Proof.
  rewrite !isAbsolute_rooted. fold (rooted requestDirPath) (rooted cwd).
  fold (rooted found). intros Hdir Hcwd. unfold findConfigFile.
  destruct (Path.isAbsolute configFile) eqn:Habs.
  { rewrite call_fileExists_eq, bind_Done. cbn.
    destruct (sys_fileExists (sys compiler) configFile); [|done].
    intros [= <- _]. by rewrite isAbsolute_rooted in Habs. }
  destruct (matchesRelative configFile).
  { rewrite call_fileExists_eq, bind_Done. cbn.
    destruct (sys_fileExists (sys compiler)
                (Path.resolve cwd [requestDirPath; configFile])); [|done].
    intros [= <- _]. by apply resolve_rooted. }
  by apply findConfigFile_loop_rooted.
Qed.

(** X3. From a rooted request directory the search does not depend on the
    working directory of the process: [path.resolve] stops at the request
    directory, and the other two branches never read it. *)
Theorem findConfigFile_ignores_cwd (cwd cwd' : string) (fuel : nat)
    (requestDirPath configFile : string) :
  Path.isAbsolute requestDirPath = true ->
  findConfigFile cwd fuel compiler requestDirPath configFile =
    findConfigFile cwd' fuel compiler requestDirPath configFile.
Proof.
  rewrite isAbsolute_rooted. intros Hdir. unfold findConfigFile.
  by rewrite (resolve_from_rooted cwd cwd' requestDirPath configFile Hdir).
Qed.

End Returned.

Lemma findConfigFile_returns_existing_witness :
  enough_fuel "/home/u" <= 9
  /\ exists (r : option string) (made : list Event),
       findConfigFile "/" 9
         (Example.compilerOf (Example.v 3 5 0) [("/home/tsconfig.json", "{}")])
         "/home/u" "tsconfig.json" = (Done r, made)
       /\ forallb isFileExists made = true.
Proof.
  assert (H : enough_fuel "/home/u" <= 9) by (vm_compute; lia).
  split; [exact H|].
  destruct (findConfigFile_returns_existing
              (Example.compilerOf (Example.v 3 5 0) [("/home/tsconfig.json", "{}")])
              "/" 9 "/home/u" "tsconfig.json" H)
    as (r & made & Hrun & Hall & _).
  exists r, made. split; [exact Hrun | exact Hall].
Defined.

Lemma findConfigFile_returns_absolute_witness :
  Path.isAbsolute "/home/u" = true
  /\ Path.isAbsolute "/" = true
  /\ Path.isAbsolute "/home/tsconfig.json" = true.
Proof.
  split; [reflexivity|]. split; [reflexivity|].
  exact (findConfigFile_returns_absolute
           (Example.compilerOf (Example.v 3 5 0) [("/home/tsconfig.json", "{}")])
           "/" 9 "/home/u" "../tsconfig.json" "/home/tsconfig.json"
           [FileExists "/home/tsconfig.json"] eq_refl eq_refl eq_refl).
Defined.

Lemma findConfigFile_ignores_cwd_witness :
  Path.isAbsolute "/home/u" = true
  /\ findConfigFile "/srv" 9
       (Example.compilerOf (Example.v 3 5 0) [("/home/tsconfig.json", "{}")])
       "/home/u" "../tsconfig.json"
     = findConfigFile "/" 9
         (Example.compilerOf (Example.v 3 5 0) [("/home/tsconfig.json", "{}")])
         "/home/u" "../tsconfig.json".
Proof.
  split; [reflexivity|].
  exact (findConfigFile_ignores_cwd
           (Example.compilerOf (Example.v 3 5 0) [("/home/tsconfig.json", "{}")])
           "/srv" "/" 9 "/home/u" "../tsconfig.json" eq_refl).
Defined.

(** From a request directory that is not rooted the working directory
    does matter. *)
Example findConfigFile_relative_dir_reads_cwd :
  outcome (findConfigFile "/srv" 9
             (Example.compilerOf (Example.v 3 5 0) [("/srv/tsconfig.json", "{}")])
             "app" "../tsconfig.json") = Done (Some "/srv/tsconfig.json")
  /\ outcome (findConfigFile "/" 9
                (Example.compilerOf (Example.v 3 5 0) [("/srv/tsconfig.json", "{}")])
                "app" "../tsconfig.json") = Done None.
Proof. split; reflexivity. Qed.

(** ** Which references are relative *)

Lemma prefix_nil (s : string) : String.prefix "" s = true.
Proof. by destruct s. Qed.

Lemma prefix_String (a b : ascii) (s1 s2 : string) :
  String.prefix (String a s1) (String b s2) = Ascii.eqb b a && String.prefix s1 s2.
Proof.
  cbn [String.prefix]. destruct (Ascii.ascii_dec a b) as [->|Hne].
  - by rewrite Ascii.eqb_refl.
  - rewrite Ascii.eqb_sym. apply Ascii.eqb_neq in Hne. by rewrite Hne.
Qed.

(** X4. The references [findConfigFile] resolves against the request
    directory are exactly those that start with [./], [.\], [../] or
    [..\]; a name starting with a dot otherwise ([.config.json], [..],
    [...]) is searched for like any bare name. *)
Theorem matchesRelative_prefixes (configFile : string) :
  matchesRelative configFile =
    String.prefix "./" configFile || String.prefix ".\" configFile
    || String.prefix "../" configFile || String.prefix "..\" configFile.
Proof.
  destruct configFile as [|c0 [|c1 [|c2 rest]]];
    unfold matchesRelative, isDelimiter;
    repeat rewrite prefix_String; rewrite ?prefix_nil; cbn [String.prefix];
    repeat match goal with
           | |- context [Ascii.eqb ?a ?b] => destruct (Ascii.eqb a b)
           end; reflexivity.
Qed.

(** ** More on [getConfigFile] *)

Section MoreLoad.

Context {Chalk Diagnostic WebpackError : Type}.
Variable cwd : string.
Variable utils : @Utils Chalk Diagnostic WebpackError.
Variable compiler : @Compiler Diagnostic.
Variable colors : Chalk.
Variable loader : LoaderContext.
Variable loaderOptions : LoaderOptions.
Variable compilerCompatible : bool.
Variable compilerDetailsLogMessage : string.

Lemma assign_over_empty (C : gmap string JS.Value) :
  JS.Object_assign ∅ [Some ∅; Some C] = delete "__proto__" C.
Proof.
  apply map_eq. intros key.
  destruct (decide (key = JS.proto_key)) as [->|Hkey].
  - by rewrite proto_assign_two_plain, lookup_delete_eq.
  - rewrite lookup_assign_two by done. rewrite lookup_empty, lookup_delete_ne by done.
    by destruct (C !! key).
Qed.

Lemma assign_contained (F C : gmap string JS.Value) :
  F !! "__proto__" = None ->
  C ⊆ F -> JS.Object_assign ∅ [Some F; Some C] = F.
Proof.
  intros Hplain Hsub. apply map_eq. intros key.
  destruct (decide (key = JS.proto_key)) as [->|Hkey].
  - by rewrite proto_assign_two_plain.
  - rewrite lookup_assign_two by done.
    destruct (C !! key) as [value|] eqn:HC; [|done].
    symmetry. by apply (lookup_weaken C F).
Qed.

(** X5. When no configuration file is located, [getConfigFile] returns
    the configuration [{ compilerOptions: C, files: [] }], where [C] is
    the caller's compiler options (less a property [__proto__] of their
    own, which [Object.assign] does not copy), with no path and no error,
    and reads no file; this is also what a reference to a file that does
    not exist comes to. *)
Theorem getConfigFile_nothing_located (fuel : nat) (made : list Event) :
  findConfigFile cwd fuel compiler (Path.dirname (resourcePath loader))
    (configFile loaderOptions) = (Done None, made) ->
  getConfigFile cwd utils fuel compiler colors loader loaderOptions
    compilerCompatible compilerDetailsLogMessage =
    (Done
       {| configFilePath := None;
          configFile_ :=
            {| config :=
                 {[ "compilerOptions" :=
                      JS.Object (delete "__proto__" (compilerOptions loaderOptions));
                    "files" := JS.Array [] ]};
               error := None |};
          configFileError := None |},
     made ++ (if compilerCompatible then [LogInfo compilerDetailsLogMessage]
              else [])).
Proof.
  intros Hfind. rewrite (getConfigFile_run _ _ _ _ _ _ _ _ _ _ _ Hfind).
  cbn [loadError loadedConfigFile config error logged reads].
  rewrite app_nil_r, set_compilerOptions. unfold mergedOptions, emptyConfig.
  rewrite lookup_insert_eq. cbn [JS.as_source].
  by rewrite assign_over_empty, insert_insert_eq.
Qed.

(** X6. When the caller's compiler options are all in the file's already
    (in particular when the caller gives none), and the file's options
    have no property [__proto__] of their own, [getConfigFile] returns
    the configuration as it was read: the merge changes nothing. *)
Theorem getConfigFile_merge_contained (fuel : nat) (F : gmap string JS.Value) :
  enough_fuel (Path.dirname (resourcePath loader)) <= fuel ->
  exists (r : ConfigFileResult) (made : list Event),
    getConfigFile cwd utils fuel compiler colors loader loaderOptions
      compilerCompatible compilerDetailsLogMessage = (Done r, made)
    /\ (configFileError r = None ->
        config (loadedConfigFile compiler (configFilePath r))
          !! "compilerOptions" = Some (JS.Object F) ->
        F !! "__proto__" = None ->
        compilerOptions loaderOptions ⊆ F ->
        configFile_ r = loadedConfigFile compiler (configFilePath r)).
Proof.
  intros Hfuel.
  destruct (findConfigFile_returns cwd compiler fuel _ (configFile loaderOptions) Hfuel)
    as (located & made & Hfind & _).
  eexists _, _. split; [by apply getConfigFile_run|].
  cbn [configFilePath configFile_ configFileError].
  intros -> HF Hplain Hsub. unfold mergedOptions. rewrite HF. cbn [JS.as_source].
  rewrite (assign_contained _ _ Hplain Hsub), set_compilerOptions.
  rewrite (insert_id _ _ _ HF). by destruct (loadedConfigFile compiler located).
Qed.

(** X7. The error [getConfigFile] reports is the first element of what
    [formatErrors] answers, and the merge is guarded by that element, not
    by the diagnostic of the read: when the file was read with an error
    and the formatter answers no message for it, no error is reported and
    the caller's options (any but a property [__proto__] of their own)
    are merged over what the failed read gave. *)
Theorem getConfigFile_dropped_diagnostic (fuel : nat) (path : string)
    (made : list Event) (err : Diagnostic) :
  findConfigFile cwd fuel compiler (Path.dirname (resourcePath loader))
    (configFile loaderOptions) = (Done (Some path), made) ->
  error (readConfigFile compiler path (sys_readFile (sys compiler))) = Some err ->
  formatErrors utils [err] loaderOptions colors compiler path (context loader) = [] ->
  exists (r : ConfigFileResult) (made' : list Event),
    getConfigFile cwd utils fuel compiler colors loader loaderOptions
      compilerCompatible compilerDetailsLogMessage = (Done r, made')
    /\ configFilePath r = Some path
    /\ configFileError r = None
    /\ error (configFile_ r) = Some err
    /\ forall key value,
         key <> "__proto__" ->
         compilerOptions loaderOptions !! key = Some value ->
         exists merged : gmap string JS.Value,
           config (configFile_ r) !! "compilerOptions" = Some (JS.Object merged)
           /\ merged !! key = Some value.
Proof.
  intros Hfind Herr Hdrop. eexists _, _.
  split; [by apply (getConfigFile_run _ _ _ _ _ _ _ _ _ _ _ Hfind)|].
  cbn [configFilePath configFile_ configFileError].
  unfold loadError. cbn [loadedConfigFile]. rewrite Herr, Hdrop. cbn [head].
  split; [done|]. split; [done|]. cbn [error config]. split; [done|].
  intros key value Hordinary Hkey. eexists. rewrite set_compilerOptions.
  split; [by rewrite lookup_insert_eq|].
  unfold mergedOptions, JS.Object_assign. cbn [foldl].
  rewrite lookup_assign_one by done. cbn [mbind option_bind]. by rewrite Hkey.
Qed.


End MoreLoad.

(** A reference to a file that is not there. *)
Lemma getConfigFile_nothing_located_witness :
  findConfigFile "/" 0 (Example.compilerOf (Example.v 3 5 0) [])
    (Path.dirname "/p/src/index.ts") "/missing/tsconfig.json"
  = (Done None, [FileExists "/missing/tsconfig.json"])
  /\ getConfigFile "/" Example.utils 0 (Example.compilerOf (Example.v 3 5 0) [])
       tt (Example.loaderAt "/p/src/index.ts")
       (Example.optionsFor "/missing/tsconfig.json" {[ "strict" := JS.Bool true ]})
       false "ts-loader: Using typescript@3.5.0"
     = (Done
          {| configFilePath := None;
             configFile_ :=
               {| config :=
                    {[ "compilerOptions" :=
                         JS.Object {[ "strict" := JS.Bool true ]};
                       "files" := JS.Array [] ]};
                  error := None |};
             configFileError := None |},
        [FileExists "/missing/tsconfig.json"]).
Proof.
  split; [reflexivity|].
  exact (getConfigFile_nothing_located "/" Example.utils
           (Example.compilerOf (Example.v 3 5 0) [])
           tt (Example.loaderAt "/p/src/index.ts")
           (Example.optionsFor "/missing/tsconfig.json"
              {[ "strict" := JS.Bool true ]})
           false "ts-loader: Using typescript@3.5.0" 0
           [FileExists "/missing/tsconfig.json"] eq_refl).
Defined.

Lemma getConfigFile_merge_contained_witness :
  enough_fuel (Path.dirname "/p/src/index.ts") <= 20
  /\ exists (r : ConfigFileResult) (made : list Event),
       getConfigFile "/" Example.utils 20
         (Example.compilerOf (Example.v 3 5 0) [("/p/tsconfig.json", "{}")])
         tt (Example.loaderAt "/p/src/index.ts")
         (Example.optionsFor "tsconfig.json" ∅)
         true "ts-loader: Using typescript@3.5.0" = (Done r, made).
Proof.
  assert (H : enough_fuel (Path.dirname "/p/src/index.ts") <= 20)
    by (vm_compute; lia).
  split; [exact H|].
  destruct (getConfigFile_merge_contained "/" Example.utils
              (Example.compilerOf (Example.v 3 5 0) [("/p/tsconfig.json", "{}")])
              tt (Example.loaderAt "/p/src/index.ts")
              (Example.optionsFor "tsconfig.json" ∅)
              true "ts-loader: Using typescript@3.5.0" 20
              {[ "strict" := JS.Bool true ]} H)
    as (r & made & Hrun & _).
  exists r, made. exact Hrun.
Defined.

Example getConfigFile_merge_contained_run :
  match outcome
          (getConfigFile "/" Example.utils 20
             (Example.compilerOf (Example.v 3 5 0) [("/p/tsconfig.json", "{}")])
             tt (Example.loaderAt "/p/src/index.ts")
             (Example.optionsFor "tsconfig.json" ∅)
             true "ts-loader: Using typescript@3.5.0")
  with
  | Done r =>
      configFile_ r =
        readConfigFile
          (Example.compilerOf (Example.v 3 5 0) [("/p/tsconfig.json", "{}")])
          "/p/tsconfig.json" (fun _ => Some "{}")
  | OutOfFuel => False
  end.
Proof. vm_compute. reflexivity. Qed.

(** A [tsconfig.json] that does not parse, under a formatter that drops
    the diagnostic. *)
Lemma getConfigFile_dropped_diagnostic_witness :
  (findConfigFile "/" 20
     (Example.compilerOf (Example.v 3 5 0) [("/p/tsconfig.json", "{")])
     (Path.dirname "/p/src/index.ts") "tsconfig.json"
   = (Done (Some "/p/tsconfig.json"),
      [FileExists "/p/src/tsconfig.json"; FileExists "/p/tsconfig.json"])
   /\ error (readConfigFile
               (Example.compilerOf (Example.v 3 5 0) [("/p/tsconfig.json", "{")])
               "/p/tsconfig.json"
               (sys_readFile
                  (sys (Example.compilerOf (Example.v 3 5 0)
                          [("/p/tsconfig.json", "{")]))))
      = Some "'}' expected.")
  /\ exists (r : ConfigFileResult) (made' : list Event),
       getConfigFile "/" droppingUtils 20
         (Example.compilerOf (Example.v 3 5 0) [("/p/tsconfig.json", "{")])
         tt (Example.loaderAt "/p/src/index.ts")
         (Example.optionsFor "tsconfig.json" {[ "b" := JS.Number 3 ]})
         false "ts-loader: Using typescript@3.5.0" = (Done r, made')
       /\ configFileError r = None
       /\ error (configFile_ r) = Some "'}' expected.".
Proof.
  split; [split; reflexivity|].
  destruct (getConfigFile_dropped_diagnostic "/" droppingUtils
              (Example.compilerOf (Example.v 3 5 0) [("/p/tsconfig.json", "{")])
              tt (Example.loaderAt "/p/src/index.ts")
              (Example.optionsFor "tsconfig.json" {[ "b" := JS.Number 3 ]})
              false "ts-loader: Using typescript@3.5.0" 20 "/p/tsconfig.json"
              [FileExists "/p/src/tsconfig.json"; FileExists "/p/tsconfig.json"]
              "'}' expected." eq_refl eq_refl eq_refl)
    as (r & made' & Hrun & _ & Hnone & Herr & _).
  exists r, made'. split; [exact Hrun|]. split; [exact Hnone | exact Herr].
Defined.


(** ** More on the suffix-appending host *)

Section MoreHost.

Context {Chalk Diagnostic WebpackError : Type}.
Variable utils : @Utils Chalk Diagnostic WebpackError.
Variable sys : System.
Variable loaderOptions : LoaderOptions.

Let transformFileName (rawFileName : string) : string :=
  getPossiblyRenamedFilePath utils rawFileName loaderOptions.

Lemma lower_ascii_idem (c : ascii) :
  JS.lower_ascii (JS.lower_ascii c) = JS.lower_ascii c.
Proof. by destruct c as [[] [] [] [] [] [] [] []]. Qed.

Lemma toLowerCase_idem (s : string) :
  JS.toLowerCase (JS.toLowerCase s) = JS.toLowerCase s.
Proof.
  induction s as [|c s IH]; [done|]. cbn. by rewrite lower_ascii_idem, IH.
Qed.

Lemma discoveredExtensions_length (extensions allFiles : list string) :
  length (discoveredExtensions transformFileName extensions allFiles)
  <= length allFiles.
Proof.
  unfold discoveredExtensions.
  etransitivity; [apply List.filter_length_le|].
  rewrite length_map. apply List.filter_length_le.
Qed.

Lemma discoveredExtensions_unchanged (extensions allFiles : list string) :
  (forall fileName, In fileName allFiles -> transformFileName fileName = fileName) ->
  discoveredExtensions transformFileName extensions allFiles = [].
Proof.
  intros Hsame. unfold discoveredExtensions.
  replace (List.filter _ allFiles) with (@nil string); [done|].
  symmetry. induction allFiles as [|fileName files IH]; [done|].
  cbn [List.filter]. rewrite (Hsame fileName) by by left.
  rewrite String.eqb_refl. cbn. apply IH. intros f Hf. apply Hsame. by right.
Qed.

Lemma discoveredExtensions_none_asked (allFiles : list string) :
  discoveredExtensions transformFileName [] allFiles = [].
Proof.
  unfold discoveredExtensions.
  replace (List.filter _ allFiles) with (@nil string); [done|].
  symmetry. induction allFiles as [|fileName files IH]; [done|].
  cbn [List.filter JS.includes existsb]. by rewrite andb_false_r.
Qed.

(** X9. Whatever the options, a file query on the host costs exactly one
    call to [sys], of the same kind: on the name itself when no rule is
    configured, on the rewritten name otherwise; and the host's
    case-sensitivity flag is always that of [sys]. *)
Theorem host_file_queries :
  let host := getSuffixAppendingParseConfigHost utils sys loaderOptions in
  let asked := fun path : string =>
    if (length (appendTsSuffixTo loaderOptions) =? 0)%nat
       && (length (appendTsxSuffixTo loaderOptions) =? 0)%nat
    then path else transformFileName path in
  useCaseSensitiveFileNames host = sys_useCaseSensitiveFileNames sys
  /\ forall path,
       fileExists host path =
         (Done (sys_fileExists sys (asked path)), [FileExists (asked path)])
       /\ readFile host path =
            (Done (sys_readFile sys (asked path)), [ReadFile (asked path)]).
Proof.
  intros host asked. subst host asked transformFileName.
  unfold getSuffixAppendingParseConfigHost.
  destruct ((length (appendTsSuffixTo loaderOptions) =? 0)%nat
            && (length (appendTsxSuffixTo loaderOptions) =? 0)%nat); cbn; done.
Qed.

(** X10. When the rewrite renames none of the files of the directory, or
    when no extension is asked for, [readDirectory] asks [sys] the second
    time for exactly the extensions it was given: the listing is that of
    [sys] for these extensions, passed through the rewrite, at the price
    of the bare listing made first. *)
Theorem readDirectory_nothing_discovered (rootDir : string)
    (extensions : list string) (rest : ReadDirectoryRest) :
  appendTsSuffixTo loaderOptions <> [] \/ appendTsxSuffixTo loaderOptions <> [] ->
  (forall fileName,
     In fileName (sys_readDirectory sys rootDir None no_rest) ->
     transformFileName fileName = fileName)
  \/ extensions = [] ->
  readDirectory (getSuffixAppendingParseConfigHost utils sys loaderOptions)
    rootDir extensions rest =
    (Done (map transformFileName
             (sys_readDirectory sys rootDir (Some extensions) rest)),
     [ReadDirectory rootDir None no_rest;
      ReadDirectory rootDir (Some extensions) rest]).
Proof.
  intros Hrules Hnone.
  rewrite (readDirectory_run utils sys loaderOptions rootDir extensions rest Hrules).
  fold transformFileName.
  assert (Hempty :
    discoveredExtensions transformFileName extensions
      (sys_readDirectory sys rootDir None no_rest) = []).
  { destruct Hnone as [Hsame| ->].
    - by apply discoveredExtensions_unchanged.
    - apply discoveredExtensions_none_asked. }
  by rewrite Hempty, app_nil_r.
Qed.

(** X11. What [readDirectory] asks [sys] for in its second call is the
    extensions it was given, in order and all of them, followed by at most
    one extension per file of the bare listing, each of them non-empty and
    in lower case. *)
Theorem readDirectory_extra_extensions (rootDir : string)
    (extensions : list string) (rest : ReadDirectoryRest) :
  appendTsSuffixTo loaderOptions <> [] \/ appendTsxSuffixTo loaderOptions <> [] ->
  exists extra : list string,
    calls (readDirectory
             (getSuffixAppendingParseConfigHost utils sys loaderOptions)
             rootDir extensions rest) =
      [ReadDirectory rootDir None no_rest;
       ReadDirectory rootDir (Some (extensions ++ extra)) rest]
    /\ length extra <= length (sys_readDirectory sys rootDir None no_rest)
    /\ forall ext, In ext extra -> ext <> "" /\ JS.toLowerCase ext = ext.
Proof.
  intros Hrules.
  exists (discoveredExtensions transformFileName extensions
            (sys_readDirectory sys rootDir None no_rest)).
  rewrite (readDirectory_run utils sys loaderOptions rootDir extensions rest Hrules).
  split; [done|]. split; [apply discoveredExtensions_length|].
  intros ext Hext.
  apply (discoveredExtensions_In utils loaderOptions) in Hext
    as (Hne & fileName & _ & _ & _ & ->).
  split; [done | apply toLowerCase_idem].
Qed.

End MoreHost.

Lemma readDirectory_nothing_discovered_witness :
  (appendTsSuffixTo Example.vueOptions <> []
   \/ appendTsxSuffixTo Example.vueOptions <> [])
  /\ readDirectory
       (getSuffixAppendingParseConfigHost Example.utils
          (Example.sysOf [("a.js", ""); ("b.ts", "")]) Example.vueOptions)
       "" [".ts"] no_rest
     = (Done ["b.ts"],
        [ReadDirectory "" None no_rest; ReadDirectory "" (Some [".ts"]) no_rest]).
Proof.
  assert (H : appendTsSuffixTo Example.vueOptions <> []
              \/ appendTsxSuffixTo Example.vueOptions <> []).
  { left. discriminate. }
  split; [exact H|].
  refine (readDirectory_nothing_discovered Example.utils
            (Example.sysOf [("a.js", ""); ("b.ts", "")]) Example.vueOptions
            "" [".ts"] no_rest H _).
  left. intros fileName [<-|[<-|[]]]; reflexivity.
Defined.

Lemma readDirectory_extra_extensions_witness :
  (appendTsSuffixTo Example.vueAnyCaseOptions <> []
   \/ appendTsxSuffixTo Example.vueAnyCaseOptions <> [])
  /\ exists extra : list string,
       calls (readDirectory
                (getSuffixAppendingParseConfigHost Example.utils
                   (Example.sysOf [("A.VUE", ""); ("LICENSE", ""); ("a.vue", "")])
                   Example.vueAnyCaseOptions)
                "" [".ts"] no_rest) =
         [ReadDirectory "" None no_rest;
          ReadDirectory "" (Some ([".ts"] ++ extra)) no_rest]
       /\ length extra <= 3.
Proof.
  assert (H : appendTsSuffixTo Example.vueAnyCaseOptions <> []
              \/ appendTsxSuffixTo Example.vueAnyCaseOptions <> []).
  { left. discriminate. }
  split; [exact H|].
  destruct (readDirectory_extra_extensions Example.utils
              (Example.sysOf [("A.VUE", ""); ("LICENSE", ""); ("a.vue", "")])
              Example.vueAnyCaseOptions "" [".ts"] no_rest H)
    as (extra & Hcalls & Hlen & _).
  exists extra. split; [exact Hcalls | exact Hlen].
Defined.

Example readDirectory_repeats_run :
  calls (readDirectory
           (getSuffixAppendingParseConfigHost Example.utils
              (Example.sysOf [("A.VUE", ""); ("LICENSE", ""); ("a.vue", "")])
              Example.vueAnyCaseOptions)
           "" [".ts"] no_rest) =
    [ReadDirectory "" None no_rest;
     ReadDirectory "" (Some [".ts"; ".vue"; ".vue"]) no_rest].
Proof. reflexivity. Qed.

(** ** More on [getConfigParseResult] *)

Section MoreParse.

Context {Chalk Diagnostic WebpackError : Type}.
Variable utils : @Utils Chalk Diagnostic WebpackError.
Variable compiler : @Compiler Diagnostic.
Variable configFile : @ConfigFile Diagnostic.
Variable basePath : string.
Variable configFilePath : option string.
Variable loaderOptions : LoaderOptions.

Let parsed : ParsedCommandLine :=
  parseJsonConfigFileContent compiler (config configFile)
    (getSuffixAppendingParseConfigHost utils (sys compiler) loaderOptions)
    basePath.

Let result : ParsedCommandLine :=
  getConfigParseResult utils compiler configFile basePath configFilePath
    loaderOptions.

(** X12. The gate of [getConfigParseResult] on the parts of the version:
    a compiler whose numbers are below 3.5.0, and also a pre-release of
    3.5.0 itself (a nightly [3.5.0-dev...]), gets the parser's answer
    untouched; 3.5.0 as released, and any version above it by the numbers,
    pre-release or not, gets the options with [configFilePath] set, an
    earlier value of that option being replaced (and a property
    [__proto__] of the options' own, which [Object.assign] does not copy,
    left out). *)
Theorem getConfigParseResult_gate_on_numbers :
  let v := version compiler in
  (((Semver.major v < 3)%N
    \/ (Semver.major v = 3%N /\ (Semver.minor v < 5)%N)
    \/ (Semver.major v = 3%N /\ Semver.minor v = 5%N /\ Semver.patch v = 0%N
        /\ Semver.prerelease v <> [])) ->
   result = parsed)
  /\ (((3 < Semver.major v)%N
       \/ (Semver.major v = 3%N /\ (5 < Semver.minor v)%N)
       \/ (Semver.major v = 3%N /\ Semver.minor v = 5%N
           /\ ((0 < Semver.patch v)%N
               \/ (Semver.patch v = 0%N /\ Semver.prerelease v = [])))) ->
      options result =
        <["configFilePath" := string_or_undefined configFilePath]>
          (delete "__proto__" (options parsed))).
Proof.
  intros v. subst v result parsed. unfold getConfigParseResult. split.
  - intros Hbelow.
    destruct (Semver.gte (version compiler) v3_5_0) eqn:Hgte; [|done].
    apply gte_v3_5_0 in Hgte.
    destruct Hbelow as [H|[[H1 H2]|(H1 & H2 & H3 & H4)]];
      destruct Hgte as [G|[[G1 G2]|(G1 & G2 & [G3|[G3 G4]])]]; try lia; done.
  - intros Habove. apply gte_v3_5_0 in Habove. rewrite Habove.
    cbn [options]. by apply assign_stamp.
Qed.

(** X13. With no rule configured the compiler parses against [sys]
    itself: the file names and the errors [getConfigParseResult] returns
    are those of [compiler.parseJsonConfigFileContent] over [sys], the
    options too (from 3.5.0 on with [configFilePath] set and without a
    property [__proto__] of their own), and below 3.5.0 the whole result
    is. *)
Theorem getConfigParseResult_no_rules :
  appendTsSuffixTo loaderOptions = [] ->
  appendTsxSuffixTo loaderOptions = [] ->
  let direct :=
    parseJsonConfigFileContent compiler (config configFile)
      (host_of_sys (sys compiler)) basePath in
  fileNames result = fileNames direct
  /\ errors result = errors direct
  /\ options result =
       (if Semver.gte (version compiler) v3_5_0
        then <["configFilePath" := string_or_undefined configFilePath]>
               (delete "__proto__" (options direct))
        else options direct)
  /\ (Semver.gte (version compiler) v3_5_0 = false -> result = direct).
Proof.
  intros Hts Htsx direct. subst direct result parsed.
  unfold getConfigParseResult, getSuffixAppendingParseConfigHost.
  rewrite Hts, Htsx. cbn [length Nat.eqb andb].
  destruct (Semver.gte (version compiler) v3_5_0); cbn [fileNames errors options].
  - by rewrite assign_stamp.
  - done.
Qed.

End MoreParse.

Lemma getConfigParseResult_no_rules_witness :
  let compiler := Example.compilerOf (Example.v 3 4 5) [] in
  let loaderOptions := Example.optionsFor "tsconfig.json" ∅ in
  let configFile : @ConfigFile string :=
    {| config := {[ "compilerOptions" := JS.Object {[ "strict" := JS.Bool true ]} ]};
       error := None |} in
  (appendTsSuffixTo loaderOptions = [] /\ appendTsxSuffixTo loaderOptions = [])
  /\ getConfigParseResult Example.utils compiler configFile "/p"
       (Some "/p/tsconfig.json") loaderOptions
     = parseJsonConfigFileContent compiler (config configFile)
         (host_of_sys (sys compiler)) "/p".
Proof.
  intros compiler loaderOptions configFile. split; [split; reflexivity|].
  exact (proj2 (proj2 (proj2
           (getConfigParseResult_no_rules Example.utils compiler configFile "/p"
              (Some "/p/tsconfig.json") loaderOptions eq_refl eq_refl))) eq_refl).
Defined.

(** ** More on what [getConfigFile] returns *)

Section MoreLoaded.

Context {Chalk Diagnostic WebpackError : Type}.
Variable cwd : string.
Variable utils : @Utils Chalk Diagnostic WebpackError.
Variable compiler : @Compiler Diagnostic.
Variable colors : Chalk.
Variable loader : LoaderContext.
Variable loaderOptions : LoaderOptions.
Variable compilerCompatible : bool.
Variable compilerDetailsLogMessage : string.

(** X14. When the configuration read, without error, has no
    [compilerOptions], or has [null], a boolean or a number there,
    [getConfigFile] stores the caller's compiler options alone (less a
    property [__proto__] of their own): such a value contributes nothing
    to the merge and raises nothing. *)
Theorem getConfigFile_file_options_missing (fuel : nat)
    (located : option string) (made : list Event) :
  findConfigFile cwd fuel compiler (Path.dirname (resourcePath loader))
    (configFile loaderOptions) = (Done located, made) ->
  error (loadedConfigFile compiler located) = None ->
  match config (loadedConfigFile compiler located) !! "compilerOptions" with
  | None | Some JS.Undefined | Some JS.Null
  | Some (JS.Bool _) | Some (JS.Number _) => True
  | Some _ => False
  end ->
  exists (r : ConfigFileResult) (made' : list Event),
    getConfigFile cwd utils fuel compiler colors loader loaderOptions
      compilerCompatible compilerDetailsLogMessage = (Done r, made')
    /\ configFilePath r = located
    /\ configFileError r = None
    /\ config (configFile_ r) !! "compilerOptions" =
         Some (JS.Object (delete "__proto__" (compilerOptions loaderOptions)))
    /\ forall key, key <> "compilerOptions" ->
         config (configFile_ r) !! key =
           config (loadedConfigFile compiler located) !! key.
Proof.
  intros Hfind Hread Hshape. eexists _, _.
  split; [by apply (getConfigFile_run _ _ _ _ _ _ _ _ _ _ _ Hfind)|].
  cbn [configFilePath configFile_ configFileError].
  assert (Herr : loadError utils compiler colors loader loaderOptions located = None).
  { unfold loadError. destruct located; [|done]. by rewrite Hread. }
  rewrite Herr. cbn [config]. rewrite set_compilerOptions.
  split; [done|]. split; [done|].
  split; [|by intros key Hkey; rewrite lookup_insert_ne].
  rewrite lookup_insert_eq. do 2 f_equal. unfold mergedOptions.
  assert (Hnone :
    JS.as_source (config (loadedConfigFile compiler located) !! "compilerOptions")
    = None).
  { destruct (config (loadedConfigFile compiler located) !! "compilerOptions")
      as [[]|]; done. }
  rewrite Hnone. rewrite <- assign_over_empty. reflexivity.
Qed.

(** X15. For an entry file given by a rooted path, and a rooted working
    directory, the [configFilePath] that [getConfigFile] returns is an
    absolute path whenever there is one. *)
Theorem getConfigFile_path_absolute (fuel : nat) :
  Path.isAbsolute (resourcePath loader) = true ->
  Path.isAbsolute cwd = true ->
  enough_fuel (Path.dirname (resourcePath loader)) <= fuel ->
  exists (r : ConfigFileResult) (made : list Event),
    getConfigFile cwd utils fuel compiler colors loader loaderOptions
      compilerCompatible compilerDetailsLogMessage = (Done r, made)
    /\ forall path, configFilePath r = Some path -> Path.isAbsolute path = true.
Proof.
  intros Hentry Hcwd Hfuel.
  destruct (findConfigFile_returns cwd compiler fuel _ (configFile loaderOptions) Hfuel)
    as (located & made & Hfind & _).
  eexists _, _. split; [by apply getConfigFile_run|].
  cbn [configFilePath]. intros path ->.
  rewrite isAbsolute_rooted in *.
  assert (Hdir : rooted (Path.dirname (resourcePath loader)) = true).
  { change (Path.dirname (resourcePath loader)) with (up 1 (resourcePath loader)).
    by apply up_rooted. }
  revert Hfind. unfold findConfigFile.
  destruct (Path.isAbsolute (configFile loaderOptions)) eqn:Habs.
  { rewrite call_fileExists_eq, bind_Done. cbn.
    destruct (sys_fileExists (sys compiler) (configFile loaderOptions)); [|done].
    intros [= <- _]. by rewrite isAbsolute_rooted in Habs. }
  destruct (matchesRelative (configFile loaderOptions)).
  { rewrite call_fileExists_eq, bind_Done. cbn.
    destruct (sys_fileExists (sys compiler)
                (Path.resolve cwd [Path.dirname (resourcePath loader);
                                   configFile loaderOptions])); [|done].
    intros [= <- _]. by apply resolve_rooted. }
  by apply findConfigFile_loop_rooted.
Qed.

End MoreLoaded.

(** A [tsconfig.json] that only says [{ "files": [] }]. *)
Lemma getConfigFile_file_options_missing_witness :
  (findConfigFile "/" 20 (compilerReading {[ "files" := JS.Array [] ]})
     (Path.dirname "/p/src/index.ts") "tsconfig.json"
   = (Done (Some "/p/tsconfig.json"),
      [FileExists "/p/src/tsconfig.json"; FileExists "/p/tsconfig.json"])
   /\ error (loadedConfigFile (compilerReading {[ "files" := JS.Array [] ]})
               (Some "/p/tsconfig.json")) = None
   /\ config (loadedConfigFile (compilerReading {[ "files" := JS.Array [] ]})
                (Some "/p/tsconfig.json")) !! "compilerOptions" = None)
  /\ exists (r : ConfigFileResult) (made' : list Event),
       getConfigFile "/" Example.utils 20
         (compilerReading {[ "files" := JS.Array [] ]})
         tt (Example.loaderAt "/p/src/index.ts")
         (Example.optionsFor "tsconfig.json" {[ "b" := JS.Number 3 ]})
         true "ts-loader: Using typescript@3.5.0" = (Done r, made')
       /\ config (configFile_ r) !! "compilerOptions" =
            Some (JS.Object {[ "b" := JS.Number 3 ]}).
Proof.
  split; [split; [reflexivity | split; reflexivity]|].
  destruct (getConfigFile_file_options_missing "/" Example.utils
              (compilerReading {[ "files" := JS.Array [] ]})
              tt (Example.loaderAt "/p/src/index.ts")
              (Example.optionsFor "tsconfig.json" {[ "b" := JS.Number 3 ]})
              true "ts-loader: Using typescript@3.5.0" 20
              (Some "/p/tsconfig.json")
              [FileExists "/p/src/tsconfig.json"; FileExists "/p/tsconfig.json"]
              eq_refl eq_refl ltac:(vm_compute; exact I))
    as (r & made' & Hrun & _ & _ & Hoptions & _).
  exists r, made'. split; [exact Hrun | exact Hoptions].
Defined.

Lemma getConfigFile_path_absolute_witness :
  (Path.isAbsolute "/p/src/index.ts" = true
   /\ Path.isAbsolute "/" = true
   /\ enough_fuel (Path.dirname "/p/src/index.ts") <= 20)
  /\ exists (r : ConfigFileResult) (made : list Event),
       getConfigFile "/" Example.utils 20
         (Example.compilerOf (Example.v 3 5 0) [("/p/tsconfig.json", "{}")])
         tt (Example.loaderAt "/p/src/index.ts")
         (Example.optionsFor "tsconfig.json" ∅)
         true "ts-loader: Using typescript@3.5.0" = (Done r, made)
       /\ forall path, configFilePath r = Some path -> Path.isAbsolute path = true.
Proof.
  assert (H : enough_fuel (Path.dirname "/p/src/index.ts") <= 20)
    by (vm_compute; lia).
  split; [split; [reflexivity | split; [reflexivity | exact H]]|].
  exact (getConfigFile_path_absolute "/" Example.utils
           (Example.compilerOf (Example.v 3 5 0) [("/p/tsconfig.json", "{}")])
           tt (Example.loaderAt "/p/src/index.ts")
           (Example.optionsFor "tsconfig.json" ∅)
           true "ts-loader: Using typescript@3.5.0" 20 eq_refl eq_refl H).
Defined.

(** A [tsconfig.json] that only says [{ "files": [] }], and one whose
    [compilerOptions] is [null]. *)
Example getConfigFile_file_options_missing_run :
  forall raw : gmap string JS.Value,
    raw = {[ "files" := JS.Array [] ]}
    \/ raw = {[ "compilerOptions" := JS.Null ]} ->
    match outcome
            (getConfigFile "/" Example.utils 20 (compilerReading raw)
               tt (Example.loaderAt "/p/src/index.ts")
               (Example.optionsFor "tsconfig.json" {[ "b" := JS.Number 3 ]})
               true "ts-loader: Using typescript@3.5.0")
    with
    | Done r =>
        configFilePath r = Some "/p/tsconfig.json"
        /\ config (configFile_ r) !! "compilerOptions" =
             Some (JS.Object {[ "b" := JS.Number 3 ]})
    | OutOfFuel => False
    end.
Proof. intros raw [->| ->]; vm_compute; split; reflexivity. Qed.
